(** * object-detection-app: the request-handling glue of [app.py]

    A shallow embedding of [src/app.py] (Flask front-end of a YOLO
    detector) and the properties of its input validation, bounded
    download, class-name resolution and result shaping.

    Conventions of the embedding.
    - A Python [str] is the [string] of its UTF-8 bytes; [bytes] is
      [list byte]; Python [int] is [Z]; Python [float] is the binary64 type
      [PrimFloat.float].
    - [str.strip] removes every code point that [str.isspace] accepts, the
      ones outside ASCII included (by their UTF-8 bytes).  [str.lower] is
      modelled on the ASCII letters: no code point outside ASCII
      lowercases to one of the letters of [ALLOWED_EXTS] or of the keys of
      [ALLOWED_MIME_TO_EXT], so membership in these tables is decided by
      the ASCII part.
      Lengths and indices of strings count bytes; they are used to cut
      file names at the ASCII dot only.
    - The file system is a finite map from paths to contents, and it
      refuses no write; every request runs in a state monad over the file
      system, a trace of the input/output events and the hidden state of
      the detection engine, with Python exceptions as an explicit outcome.
    - External collaborators (the detection engine, OpenCV, werkzeug,
      Flask's [url_for], the builtin [round], the remote servers) are the
      fields of the class [Externals].  The trace records the calls of the
      handler: one event for a call of [requests.get], whatever the
      library does to answer it. *)

From Stdlib Require Import ZArith Lia Ascii String List.
From Stdlib Require Import Strings.Byte Floats.PrimFloat Floats.FloatOps Floats.SpecFloat.
From Stdlib Require Import Numbers.Cyclic.Int63.Uint63.
From stdpp Require Import base option strings gmap list pretty.

Local Open Scope Z_scope.
Local Open Scope string_scope.

Set Warnings "-inexact-float".

(** ** Python builtins on strings *)

Module Py.

(** [c.lower()] for one ASCII character. *)
Definition lower_char (c : ascii) : ascii :=
  let n := N_of_ascii c in
  if ((65 <=? n) && (n <=? 90))%N then ascii_of_N (n + 32) else c.

(** [s.lower()] *)
Fixpoint lower (s : string) : string :=
  match s with
  | EmptyString => EmptyString
  | String c s' => String (lower_char c) (lower s')
  end.

(** The string of the given bytes. *)
Definition code (bytes : list N) : string :=
  string_of_list_ascii (ascii_of_N <$> bytes).

(** The code points [c] with [c.isspace()], each as its UTF-8 bytes:
    U+0009 to U+000D, U+001C to U+001F, U+0020, U+0085, U+00A0, U+1680,
    U+2000 to U+200A, U+2028, U+2029, U+202F, U+205F and U+3000. *)
Definition whitespace : list string :=
  code <$>
    [ [0x09]; [0x0A]; [0x0B]; [0x0C]; [0x0D];
      [0x1C]; [0x1D]; [0x1E]; [0x1F]; [0x20];
      [0xC2; 0x85]; [0xC2; 0xA0];
      [0xE1; 0x9A; 0x80];
      [0xE2; 0x80; 0x80]; [0xE2; 0x80; 0x81]; [0xE2; 0x80; 0x82];
      [0xE2; 0x80; 0x83]; [0xE2; 0x80; 0x84]; [0xE2; 0x80; 0x85];
      [0xE2; 0x80; 0x86]; [0xE2; 0x80; 0x87]; [0xE2; 0x80; 0x88];
      [0xE2; 0x80; 0x89]; [0xE2; 0x80; 0x8A];
      [0xE2; 0x80; 0xA8]; [0xE2; 0x80; 0xA9]; [0xE2; 0x80; 0xAF];
      [0xE2; 0x81; 0x9F];
      [0xE3; 0x80; 0x80] ]%N.

(** [c.isspace()] for one code point [c], given by its UTF-8 bytes. *)
Definition isspace (c : string) : bool := bool_decide (c ∈ whitespace).

(** [s.lstrip()]: a code point of whitespace takes one, two or three
    bytes. *)
Fixpoint lstrip (s : string) : string :=
  match s with
  | EmptyString => EmptyString
  | String c1 s1 =>
      if isspace (String c1 EmptyString) then lstrip s1
      else
        match s1 with
        | EmptyString => s
        | String c2 s2 =>
            if isspace (String c1 (String c2 EmptyString)) then lstrip s2
            else
              match s2 with
              | EmptyString => s
              | String c3 s3 =>
                  if isspace (String c1 (String c2 (String c3 EmptyString)))
                  then lstrip s3 else s
              end
        end
  end.

(** [s.rstrip()]: the string is cut where only whitespace follows. *)
Fixpoint rstrip (s : string) : string :=
  match s with
  | EmptyString => EmptyString
  | String c s' =>
      if bool_decide (lstrip s = EmptyString) then EmptyString
      else String c (rstrip s')
  end.

(** [s.strip()] *)
Definition strip (s : string) : string := rstrip (lstrip s).

(** [s.startswith(p)] *)
Definition startswith (p s : string) : bool := String.prefix p s.

(** [c in s] for a one-character needle [c]. *)
Fixpoint contains (c : ascii) (s : string) : bool :=
  match s with
  | EmptyString => false
  | String a s' => if decide (a = c) then true else contains c s'
  end.

(** [s.split(sep)] for a one-character separator: never the empty list. *)
Fixpoint split (sep : ascii) (s : string) : list string :=
  match s with
  | EmptyString => [EmptyString]
  | String c s' =>
      if decide (c = sep) then EmptyString :: split sep s'
      else match split sep s' with
           | h :: t => String c h :: t
           | [] => [String c EmptyString]
           end
  end.

(** The text after the last [sep] of [s], if [sep] occurs in [s]. *)
Fixpoint after_last (sep : ascii) (s : string) : option string :=
  match s with
  | EmptyString => None
  | String c s' =>
      match after_last sep s' with
      | Some t => Some t
      | None => if decide (c = sep) then Some s' else None
      end
  end.

(** The text before the last [sep] of [s], if [sep] occurs in [s]. *)
Fixpoint before_last (sep : ascii) (s : string) : option string :=
  match s with
  | EmptyString => None
  | String c s' =>
      match before_last sep s' with
      | Some h => Some (String c h)
      | None => if decide (c = sep) then Some EmptyString else None
      end
  end.

(** [s.rsplit(sep, 1)] for a one-character separator: [[head, tail]] cut
    at the last [sep], or [[s]] when [sep] does not occur. *)
Definition rsplit1 (sep : ascii) (s : string) : list string :=
  match before_last sep s, after_last sep s with
  | Some h, Some t => [h; t]
  | _, _ => [s]
  end.

(** [s.rfind(c)]: the index of the last [c] in [s], or [-1]. *)
Fixpoint rfind (c : ascii) (s : string) : Z :=
  match s with
  | EmptyString => -1
  | String a s' =>
      let i := rfind c s' in
      if (0 <=? i)%Z then i + 1 else if decide (a = c) then 0 else -1
  end.

(** [len(s)] *)
Definition len (s : string) : Z := Z.of_nat (String.length s).

(** [s[:i]] for [0 <= i]. *)
Fixpoint take (i : nat) (s : string) : string :=
  match i, s with
  | S i', String c s' => String c (take i' s')
  | _, _ => EmptyString
  end.

(** [s[i:]] for [0 <= i]. *)
Fixpoint drop (i : nat) (s : string) : string :=
  match i, s with
  | S i', String _ s' => drop i' s'
  | _, _ => s
  end.

(** [s.lstrip(c)] for a one-character set [c]. *)
Fixpoint lstrip_char (c : ascii) (s : string) : string :=
  match s with
  | EmptyString => EmptyString
  | String a s' => if decide (a = c) then lstrip_char c s' else s
  end.

(** [str(n)] for an [int]. *)
Definition str (n : Z) : string := pretty n.

End Py.

(** ** Paths ([pathlib]) *)

(** A path is the directory it lies in and its final component.  Every
    path the application builds is [UPLOAD_DIR / n] or [p.parent / n] for a
    file name [n] that holds no separator and is neither empty nor a dot
    name: [n] is [url_{t}.{ext}], or [{base}_{t}{ext}] cut from a result of
    [secure_filename] (letters, digits, [_], [-] and inner dots only), or
    [{stem}_annotated{ext}] cut from one of these.  On such names [d / n]
    is the entry [n] of the directory [d], which the pair records; what
    [/] does with an absolute or a dotted [n] is not modelled. *)
Record Path := mkPath { parent : string; name : string }.

#[global] Instance Path_eq_dec : EqDecision Path.
Proof. solve_decision. Defined.

#[global] Instance Path_countable : Countable Path :=
  inj_countable' (λ p, (parent p, name p)) (λ dn, mkPath dn.1 dn.2)
    (λ p, match p with mkPath _ _ => eq_refl end).

(** [d / n] *)
Definition path_join (d n : string) : Path := mkPath d n.

(** [p.suffix]: the final component from its last dot on, unless that dot
    is its first or its last character. *)
Definition suffix (p : Path) : string :=
  let i := Py.rfind "." (name p) in
  if ((0 <? i) && (i <? Py.len (name p) - 1))%Z
  then Py.drop (Z.to_nat i) (name p) else "".

(** [p.stem]: the final component without its suffix. *)
Definition stem (p : Path) : string :=
  let i := Py.rfind "." (name p) in
  if ((0 <? i) && (i <? Py.len (name p) - 1))%Z
  then Py.take (Z.to_nat i) (name p) else name p.

(** [os.path.splitext(p)] (POSIX): cut at the last dot of the last
    component, leading dots of that component not counting. *)
Definition splitext (p : string) : string * string :=
  let sepIndex := Py.rfind "/" p in
  let dotIndex := Py.rfind "." p in
  if (sepIndex <? dotIndex)%Z then
    let between :=
      Py.take (Z.to_nat (dotIndex - (sepIndex + 1))) (Py.drop (Z.to_nat (sepIndex + 1)) p) in
    if decide (Py.lstrip_char "." between = "") then (p, "")
    else (Py.take (Z.to_nat dotIndex) p, Py.drop (Z.to_nat dotIndex) p)
  else (p, "").

(** ** Exceptions and outcomes *)

(** The Python exceptions the handler can meet: a failed index into a
    list, a missing dictionary key, the [requests] family, and the
    [cv2.error] of [cv2.imwrite] on a path without writer. *)
Inductive PyExn :=
| IndexError
| KeyError (k : Z)
| RequestException (msg : string)
| CvError.

Inductive Outcome (A : Type) :=
| Ok (a : A)
| Raise (e : PyExn).

Arguments Ok {A} a.
Arguments Raise {A} e.

Definition obind {A B} (o : Outcome A) (k : A → Outcome B) : Outcome B :=
  match o with
  | Ok a => k a
  | Raise e => Raise e
  end.

(** ** Data model *)

(** A label table: [CUSTOM_NAMES] is a Python list, the engine's
    [res.names] a dictionary from class ids to labels. *)
Inductive Names :=
| NamesList (l : list string)
| NamesDict (d : gmap Z string).

(** Truth value of a container: non-empty. *)
Definition names_truthy (ns : Names) : bool :=
  match ns with
  | NamesList l => negb (bool_decide (l = []))
  | NamesDict d => negb (bool_decide (d = ∅))
  end.

(** [len(names)] *)
Definition names_len (ns : Names) : Z :=
  match ns with
  | NamesList l => Z.of_nat (length l)
  | NamesDict d => Z.of_nat (size d)
  end.

(** [names[i]]: a list counts negative indices from its end and raises
    [IndexError] out of range; a dictionary raises [KeyError]. *)
Definition names_getitem (ns : Names) (i : Z) : Outcome string :=
  match ns with
  | NamesList l =>
      let n := Z.of_nat (length l) in
      let j := if (i <? 0)%Z then i + n else i in
      if ((0 <=? j) && (j <? n))%Z
      then match l !! Z.to_nat j with Some s => Ok s | None => Raise IndexError end
      else Raise IndexError
  | NamesDict d =>
      match d !! i with Some s => Ok s | None => Raise (KeyError i) end
  end.

(** One box of the engine's result, after the conversions
    [int(b.cls[0])], [float(b.conf[0])] and [float(x)] over [b.xyxy[0]]. *)
Record Box := mkBox {
  box_cls : Z;
  box_conf : float;
  box_xyxy : float * float * float * float
}.

(** The first result set of the engine, [results[0]]. *)
Record Results := mkResults {
  names : Names;
  boxes : option (list Box)
}.

(** One entry of [dets]. *)
Record Detection := mkDetection {
  class_id : Z;
  class_name : string;
  confidence : float;
  box_xyxy_rounded : list float
}.

(** What the template is rendered with: a list of detections, or the
    single-element list [[{"error": msg}]]. *)
Inductive Item :=
| ItemDetection (d : Detection)
| ItemError (msg : string).

Record Rendered := mkRendered {
  detections : list Item;
  image_url : option string
}.

(** The file part [request.files["image"]]. *)
Record FileStorage := mkFileStorage {
  filename : string;
  file_content : list byte
}.

(** The parts of the request that [predict] reads. *)
Record Request := mkRequest {
  files_image : option FileStorage;
  form_image_url : option string
}.

(** A streamed response of [requests.get]: the message [raise_for_status]
    raises (if the status is an error), the [Content-Type] header, the
    chunks [iter_content] yields, and the message of the exception that
    ends the stream early (if any). *)
Record Response := mkResponse {
  status_error : option string;
  content_type : option string;
  body_chunks : list (list byte);
  body_error : option string
}.

(** Input/output events of a request.  [EvGet url] is the call
    [requests.get(url, ...)] of the handler; what the library does inside
    the call (the redirects it follows) is not part of the trace. *)
Inductive Event :=
| EvGet (url : string)
| EvWrite (p : Path)
| EvRemove (p : Path).

(** ** External collaborators *)

Class Externals := {
  (** hidden state of the detection engine, and [model.predict] *)
  EngineState : Type;
  model_predict :
    EngineState → Path → option (list byte) → float → float → Results * EngineState;
  (** [res.plot()], and the bytes [cv2.imwrite(path, img)] writes: OpenCV
      picks the encoder by the extension it reads off the path; when it
      knows no writer for it there are no bytes, and the call raises *)
  Raster : Type;
  plot : Results → Raster;
  imwrite_data : Path → Raster → option (list byte);
  (** assumed of the OpenCV build: it has writers for the three types a
      download is stored as, and picks them for a file name that ends in
      [.jpg], [.png] or [.bmp] *)
  imwrite_known :
    ∀ d a e raster, e ∈ ["jpg"; "png"; "bmp"] →
      is_Some (imwrite_data (mkPath d (a +:+ "." +:+ e)) raster);
  (** the builtin [round(x, ndigits)] *)
  round : float → Z → float;
  (** [werkzeug.utils.secure_filename] *)
  secure_filename : string → string;
  (** [url_for("static", filename=...)] *)
  url_for_static : string → string;
  (** the remote side of [requests.get(url, stream=True, timeout=6)]:
      the message of the exception raised, or the response *)
  requests_get : string → string + Response;
  (** the directory of [app.py] *)
  BASE_DIR : string;
  (** the lines of [models/classes.txt], when the file exists *)
  classes_txt : option (list string)
}.

(** ** The application *)

Section App.

Context `{ext : Externals}.

(** *** State of the world and the request monad *)

Record World := mkWorld {
  fs : gmap Path (list byte);
  trace : list Event;
  engine : EngineState;
  clock : Z
}.

Definition M (A : Type) : Type := World → Outcome A * World.

Definition ret {A} (a : A) : M A := λ w, (Ok a, w).

Definition raise {A} (e : PyExn) : M A := λ w, (Raise e, w).

Definition bind {A B} (m : M A) (k : A → M B) : M B :=
  λ w, match m w with
       | (Ok a, w') => k a w'
       | (Raise e, w') => (Raise e, w')
       end.

Definition lift {A} (o : Outcome A) : M A := λ w, (o, w).

(** [try: m  except requests.exceptions.RequestException as e: h(str(e))] *)
Definition try_except_RequestException {A} (m : M A) (h : string → M A) : M A :=
  λ w, match m w with
       | (Raise (RequestException msg), w') => h msg w'
       | r => r
       end.

Notation "'do' x <- m ;; k" := (bind m (λ x, k))
  (at level 10, x name, m at level 99, k at level 200, only parsing).
Notation "'run' m ;; k" := (bind m (λ _, k))
  (at level 10, m at level 99, k at level 200, only parsing).

Definition log (e : Event) : M unit :=
  λ w, (Ok tt, mkWorld (fs w) (trace w ++ [e])%list (engine w) (clock w)).

Definition set_fs (f : gmap Path (list byte) → gmap Path (list byte)) : M unit :=
  λ w, (Ok tt, mkWorld (f (fs w)) (trace w) (engine w) (clock w)).

(** Create or truncate [p] with contents [data]: [open(p, "wb")],
    [file.save(p)], and [cv2.imwrite(p, img)] once the image is encoded. *)
Definition write_file (p : Path) (data : list byte) : M unit :=
  run log (EvWrite p) ;; set_fs (insert p data).

(** [f.write(chunk)] on the open file [p]. *)
Definition append_file (p : Path) (chunk : list byte) : M unit :=
  set_fs (alter (λ old, (old ++ chunk)%list) p).

(** [os.remove(p)] *)
Definition os_remove (p : Path) : M unit :=
  run log (EvRemove p) ;; set_fs (delete p).

(** [int(time.time())] *)
Definition time_time : M Z := λ w, (Ok (clock w), w).

(** *** Module-level constants *)

Definition MODELS_DIR : string := BASE_DIR +:+ "/models".
Definition UPLOAD_DIR : string := BASE_DIR +:+ "/static/uploads".

Definition ALLOWED_EXTS : gset string := {[ "jpg"; "jpeg"; "png"; "bmp" ]}.

Definition ALLOWED_MIME_TO_EXT : gmap string string :=
  {[ "image/jpeg" := "jpg"; "image/png" := "png"; "image/bmp" := "bmp" ]}.

Definition MAX_DOWNLOAD_BYTES : Z := 5 * 1024 * 1024.

(** [[line.strip() for line in f if line.strip()]] when [classes.txt]
    exists, else [None]. *)
Definition CUSTOM_NAMES : option (list string) :=
  match classes_txt with
  | Some lines => Some (filter (λ s : string, s ≠ "") (Py.strip <$> lines))
  | None => None
  end.

(** The defaults [conf=0.25] and [iou=0.45] of [run_yolo]. *)
Definition DEFAULT_CONF : float := 0.25%float.
Definition DEFAULT_IOU : float := 0.45%float.

(** *** Helpers *)

Definition allowed (filename : string) : bool :=
  Py.contains "." filename &&
  match Py.rsplit1 "." filename !! 1%nat with
  | Some e => bool_decide (Py.lower e ∈ ALLOWED_EXTS)
  | None => false
  end.

Definition unique_name (base ext : string) : M string :=
  do now <- time_time ;;
  ret (base +:+ "_" +:+ Py.str now +:+ ext).

(** [names[cls_id] if names and cls_id < len(names) else str(cls_id)] *)
Definition resolve_class_name (names : Names) (cls_id : Z) : Outcome string :=
  if names_truthy names && (cls_id <? names_len names)%Z
  then names_getitem names cls_id
  else Ok (Py.str cls_id).

(** The dictionary appended to [dets] for the box [b]. *)
Definition detection_of (names : Names) (b : Box) : Outcome Detection :=
  let cls_id := box_cls b in
  let conf_v := box_conf b in
  let '(x1, y1, x2, y2) := box_xyxy b in
  obind (resolve_class_name names cls_id) (λ class_name,
  Ok {| class_id := cls_id;
        class_name := class_name;
        confidence := round conf_v 4;
        box_xyxy_rounded := [round x1 1; round y1 1; round x2 1; round y2 1] |}).

(** The loop [for b in res.boxes: dets.append(...)]. *)
Fixpoint collect_dets (names : Names) (bs : list Box) : Outcome (list Detection) :=
  match bs with
  | [] => Ok []
  | b :: bs' =>
      obind (detection_of names b) (λ d,
      obind (collect_dets names bs') (λ ds, Ok (d :: ds)))
  end.

(** [model.predict(source=str(image_path), conf=conf, iou=iou)[0]] *)
Definition predict_first (image_path : Path) (conf iou : float) : M Results :=
  λ w, let '(res, e') := model_predict (engine w) image_path (fs w !! image_path) conf iou in
       (Ok res, mkWorld (fs w) (trace w) e' (clock w)).

(** [names = CUSTOM_NAMES if CUSTOM_NAMES else res.names] *)
Definition select_names (res : Results) : Names :=
  match CUSTOM_NAMES with
  | Some (c :: cs) => NamesList (c :: cs)
  | _ => names res
  end.

(** [cv2.imwrite(str(p), img)]: raises [cv2.error] when no writer matches
    the extension of [p]. *)
Definition cv2_imwrite (p : Path) (img : Raster) : M unit :=
  match imwrite_data p img with
  | Some data => write_file p data
  | None => raise CvError
  end.

Definition run_yolo (image_path : Path) (conf iou : float) : M (list Detection * Path) :=
  do res <- predict_first image_path conf iou ;;
  let names := select_names res in
  do dets <- lift (match boxes res with
                   | Some (b :: bs) => collect_dets names (b :: bs)
                   | _ => Ok []
                   end) ;;
  let annotated_bgr := plot res in
  let orig_name := stem image_path in
  let ext := suffix image_path in
  let annotated_name := orig_name +:+ "_annotated" +:+ ext in
  let annotated_path := path_join (parent image_path) annotated_name in
  run cv2_imwrite annotated_path annotated_bgr ;;
  ret (dets, annotated_path).

(** *** The route [/predict] *)

(** [render_template("index.html", detections=[{"error": msg}], image_url=None)] *)
Definition error_page (msg : string) : Rendered :=
  {| detections := [ItemError msg]; image_url := None |}.

(** [render_template("index.html", detections=detections, image_url=img_url)]
    with [img_url = url_for("static", filename=f"uploads/{annotated_path.name}")] *)
Definition result_page (dets : list Detection) (annotated_path : Path) : Rendered :=
  {| detections := ItemDetection <$> dets;
     image_url := Some (url_for_static ("uploads/" +:+ name annotated_path)) |}.

(** The file the condition [file and file.filename] lets through. *)
Definition uploaded (file : option FileStorage) : option FileStorage :=
  match file with
  | Some f => if bool_decide (filename f = "") then None else Some f
  | None => None
  end.

(** A) File upload path. *)
Definition predict_upload (file : FileStorage) : M Rendered :=
  if negb (allowed (filename file)) then ret (error_page "Unsupported file type")
  else
    let fname := secure_filename (filename file) in
    let '(base, ext) := splitext fname in
    do unique <- unique_name base ext ;;
    let upload_path := path_join UPLOAD_DIR unique in
    run write_file upload_path (file_content file) ;;
    do r <- run_yolo upload_path DEFAULT_CONF DEFAULT_IOU ;;
    ret (result_page r.1 r.2).

(** The loop over [r.iter_content(chunk_size=8192)] inside
    [with open(upload_path, "wb") as f]: [true] when the size cap cut the
    download (the file is then closed and removed), [false] when the
    stream was written to its end; a failing stream raises. *)
Fixpoint save_stream (upload_path : Path) (chunks : list (list byte))
    (stream_error : option string) (total : Z) : M bool :=
  match chunks with
  | [] =>
      match stream_error with
      | Some msg => raise (RequestException msg)
      | None => ret false
      end
  | [] :: rest => save_stream upload_path rest stream_error total
  | chunk :: rest =>
      let total := total + Z.of_nat (length chunk) in
      if (MAX_DOWNLOAD_BYTES <? total)%Z then
        run os_remove upload_path ;;
        ret true
      else
        run append_file upload_path chunk ;;
        save_stream upload_path rest stream_error total
  end.

(** [requests.get(url, stream=True, timeout=6)] *)
Definition http_get (url : string) : M Response :=
  run log (EvGet url) ;;
  match requests_get url with
  | inl msg => raise (RequestException msg)
  | inr r => ret r
  end.

(** [r.raise_for_status()] *)
Definition raise_for_status (r : Response) : M unit :=
  match status_error r with
  | Some msg => raise (RequestException msg)
  | None => ret tt
  end.

(** [r.headers.get("Content-Type", "").split(";")[0].strip().lower()] *)
Definition media_type (r : Response) : string :=
  Py.lower (Py.strip (default "" (head (Py.split ";" (default "" (content_type r)))))).

(** B) URL paste path. *)
Definition predict_url (image_url_field : string) : M Rendered :=
  if negb (Py.startswith "http://" image_url_field || Py.startswith "https://" image_url_field)
  then ret (error_page "Only http/https URLs are allowed")
  else
    try_except_RequestException
      (do r <- http_get image_url_field ;;
       run raise_for_status r ;;
       let ctype := media_type r in
       match ALLOWED_MIME_TO_EXT !! ctype with
       | None => ret (error_page ("URL is not an image (got " +:+ ctype +:+ ")"))
       | Some e =>
           let ext := "." +:+ e in
           do unique <- unique_name "url" ext ;;
           let upload_path := path_join UPLOAD_DIR unique in
           run write_file upload_path [] ;;
           do too_large <- save_stream upload_path (body_chunks r) (body_error r) 0 ;;
           if too_large then ret (error_page "Image too large (>5MB)")
           else
             do res <- run_yolo upload_path DEFAULT_CONF DEFAULT_IOU ;;
             ret (result_page res.1 res.2)
       end)
      (λ e, ret (error_page ("Failed to fetch URL: " +:+ e))).

Definition predict (request : Request) : M Rendered :=
  let file := files_image request in
  let image_url_field := Py.strip (default "" (form_image_url request)) in
  match uploaded file with
  | Some f => predict_upload f
  | None =>
      if bool_decide (image_url_field = "")
      then ret (error_page "Please upload a file or provide an image URL")
      else predict_url image_url_field
  end.

End App.

Notation "'do' x <- m ;; k" := (bind m (λ x, k))
  (at level 10, x name, m at level 99, k at level 200, only parsing).
Notation "'run' m ;; k" := (bind m (λ _, k))
  (at level 10, m at level 99, k at level 200, only parsing).

(** ** Notions used by the properties *)

(** The file name has no dot at all. *)
Definition no_extension (f : string) : Prop := ∀ a b, f ≠ a +:+ "." +:+ b.

(** [e] is the extension of [f]: what follows the last dot of [f]. *)
Definition extension (f e : string) : Prop :=
  (∃ a, f = a +:+ "." +:+ e) ∧ no_extension e.

Definition same_ignoring_case (a b : string) : Prop := Py.lower a = Py.lower b.

(** The extension is one of jpg, jpeg, png, bmp, letter case apart. *)
Definition extension_allowed (e : string) : Prop :=
  ∃ a, a ∈ ["jpg"; "jpeg"; "png"; "bmp"] ∧ same_ignoring_case e a.

Definition starts_with (p s : string) : Prop := ∃ rest, s = p +:+ rest.

(** Number of bytes of a stream of chunks. *)
Definition stream_size (chunks : list (list byte)) : Z :=
  foldr (λ c acc, Z.of_nat (length c) + acc) 0 chunks.

(** The URLs fetched in a trace, and the files written in it. *)
Definition net_requests (t : list Event) : list string :=
  omap (λ e, match e with EvGet u => Some u | _ => None end) t.

Definition file_writes (t : list Event) : list Path :=
  omap (λ e, match e with EvWrite p => Some p | _ => None end) t.

(** [{stem}_annotated{ext}] beside [p]. *)
Definition annotated_beside (p : Path) : Path :=
  mkPath (parent p) (stem p +:+ "_annotated" +:+ suffix p).

(** The boxes of a result set, none when [res.boxes] is [None]. *)
Definition box_list (res : Results) : list Box := default [] (boxes res).

(** The entry of a label table for a non-negative class id, if any. *)
Definition names_lookup (ns : Names) (i : Z) : option string :=
  match ns with
  | NamesList l => if (0 <=? i)%Z then l !! Z.to_nat i else None
  | NamesDict d => d !! i
  end.

(** A dictionary of built-in names has exactly the keys [0 .. n-1]. *)
Definition names_well_formed (ns : Names) : Prop :=
  match ns with
  | NamesList _ => True
  | NamesDict d => dom d = list_to_set (seqZ 0 (Z.of_nat (size d)))
  end.

(** The chain of the specification, as written: the table's entry, else
    the built-in name, else the id as a string. *)
Definition chain_class_name (table : option (list string)) (builtin : Names)
    (cls_id : Z) : string :=
  match table ≫= (λ t, names_lookup (NamesList t) cls_id) with
  | Some s => s
  | None => default (Py.str cls_id) (names_lookup builtin cls_id)
  end.

(** The chain the code follows: one table is chosen, the loaded one when
    it is non-empty and the built-in one otherwise; an id without an entry
    in the chosen table is rendered as a string. *)
Definition single_table_class_name (table : option (list string)) (builtin : Names)
    (cls_id : Z) : string :=
  match table with
  | Some (c :: cs) => default (Py.str cls_id) (names_lookup (NamesList (c :: cs)) cls_id)
  | _ => default (Py.str cls_id) (names_lookup builtin cls_id)
  end.

Section Notions.

Context `{ext : Externals}.

(** What the engine answers for the image at [p] in the world [w]. *)
Definition engine_result (w : World) (p : Path) (conf iou : float) : Results :=
  (model_predict (engine w) p (fs w !! p) conf iou).1.

(** The hidden state of the engine after that call. *)
Definition engine_next (w : World) (p : Path) (conf iou : float) : EngineState :=
  (model_predict (engine w) p (fs w !! p) conf iou).2.

(** What [cv2.imwrite] has to write beside [p], if it can encode it. *)
Definition annotated_data (w : World) (p : Path) (conf iou : float) : option (list byte) :=
  imwrite_data (annotated_beside p) (plot (engine_result w p conf iou)).

(** The world after the engine was called on [p], and the world after the
    annotated image, encoded as [data], was written beside [p]. *)
Definition after_engine (w : World) (p : Path) (conf iou : float) : World :=
  mkWorld (fs w) (trace w) (engine_next w p conf iou) (clock w).

Definition after_run_yolo (w : World) (p : Path) (conf iou : float)
    (data : list byte) : World :=
  mkWorld
    (<[annotated_beside p := data]> (fs w))
    (trace w ++ [EvWrite (annotated_beside p)])%list
    (engine_next w p conf iou) (clock w).

(** The engine is deterministic: its answer depends on the image and the
    thresholds only, not on its hidden state. *)
Definition deterministic_engine : Prop :=
  ∀ s1 s2 p img conf iou,
    (model_predict s1 p img conf iou).1 = (model_predict s2 p img conf iou).1.

(** Where [predict] stores a download of media type extension [e] at
    clock [t]. *)
Definition download_path (t : Z) (e : string) : Path :=
  path_join UPLOAD_DIR ("url_" +:+ Py.str t +:+ "." +:+ e).

(** Where [predict] stores an upload named [n] at clock [t]. *)
Definition upload_path_of (t : Z) (n : string) : Path :=
  path_join UPLOAD_DIR
    ((splitext (secure_filename n)).1 +:+ "_" +:+ Py.str t +:+ (splitext (secure_filename n)).2).

(** The submitted [image_url], surrounding whitespace removed. *)
Definition submitted_url (request : Request) : string :=
  Py.strip (default "" (form_image_url request)).

(** The request carries no usable file part: none, or one with an empty
    file name. *)
Definition no_upload (request : Request) : Prop :=
  ∀ f, files_image request = Some f → filename f = "".

(** The world after the events [evs], with the file system [m]. *)
Definition world_after (w : World) (m : gmap Path (list byte)) (evs : list Event) : World :=
  mkWorld m (trace w ++ evs)%list (engine w) (clock w).

End Notions.

(** ** A concrete world to run the handler in *)

Module Demo.

Definition Z2float (k : Z) : float := PrimFloat.of_uint63 (Uint63.of_Z k).

(** [round(x, ndigits)] for [0 <= ndigits] and doubles of moderate size:
    the multiple of [10^-ndigits] nearest to the exact value of [x], ties
    to the even multiple, then the nearest double. *)
Definition round_ref (x : float) (ndigits : Z) : float :=
  match Prim2SF x with
  | S754_finite sgn m e =>
      let p := 10 ^ ndigits in
      let num := Zpos m * p * 2 ^ (Z.max e 0) in
      let den := 2 ^ (Z.max (- e) 0) in
      let q := num / den in
      let r := num mod den in
      let k := if (2 * r <? den)%Z then q
               else if (den <? 2 * r)%Z then q + 1
               else if Z.even q then q else q + 1 in
      let y := (Z2float k / Z2float p)%float in
      if sgn then (- y)%float else y
  | _ => x
  end.

Definition names : gmap Z string := {[ 0 := "person"; 1 := "dog" ]}.

Definition box : Box :=
  mkBox 1 0.87654321%float
    (10.26%float, 20%float, 110.75%float, 220.55%float).

(** The engine finds one dog in every image, and nothing without one. *)
Definition results (img : option (list byte)) : Results :=
  mkResults (NamesDict names)
    (match img with Some _ => Some [box] | None => None end).

Definition remote (url : string) : string + Response :=
  if decide (url = "http://example.com/page") then
    inr (mkResponse None (Some "text/html; charset=utf-8") [["060"%byte]] None)
  else if decide (url = "https://example.com/cat.jpg") then
    inr (mkResponse None (Some "Image/JPEG") [["255"%byte; "216"%byte]; []; ["255"%byte]] None)
  else inl "connection refused".

(** The letters and digits after the last dot of a path, as OpenCV reads
    the extension. *)
Definition isalnum (c : ascii) : bool :=
  let n := N_of_ascii c in
  (((48 <=? n) && (n <=? 57)) || ((65 <=? n) && (n <=? 90))
   || ((97 <=? n) && (n <=? 122)))%N.

Fixpoint alnum_prefix (s : string) : string :=
  match s with
  | EmptyString => EmptyString
  | String c s' => if isalnum c then String c (alnum_prefix s') else EmptyString
  end.

(** An encoder with writers for JPEG, PNG and BMP, the extension read as
    OpenCV does: after the last dot of the whole path, without regard to
    letter case.  The image is written as it is. *)
Definition encoder (p : Path) (raster : list byte) : option (list byte) :=
  match Py.after_last "." (parent p +:+ "/" +:+ name p) with
  | Some e =>
      if bool_decide (Py.lower (alnum_prefix e) ∈ ["jpg"; "jpeg"; "jpe"; "png"; "bmp"; "dib"])
      then Some raster else None
  | None => None
  end.

Definition encoder_known (d a e : string) (raster : list byte) :
  e ∈ ["jpg"; "png"; "bmp"] → is_Some (encoder (mkPath d (a +:+ "." +:+ e)) raster).
Proof.
  intros He. unfold encoder. cbn [parent name].
  assert (∀ x, Py.after_last "." (x +:+ "." +:+ e) = Some e) as Hlast.
  { intros x. induction x as [|c x IH].
    - repeat (apply elem_of_cons in He as [->|He]); [done..|].
      by apply elem_of_nil in He.
    - change (String c x +:+ "." +:+ e) with (String c (x +:+ "." +:+ e)).
      simpl. by rewrite IH. }
  assert (d +:+ "/" +:+ a +:+ "." +:+ e = (d +:+ "/" +:+ a) +:+ "." +:+ e) as ->.
  { induction d as [|c d IH]; [done|].
    change (String c d +:+ "/" +:+ a +:+ "." +:+ e)
      with (String c (d +:+ "/" +:+ a +:+ "." +:+ e)).
    by rewrite IH. }
  rewrite Hlast.
  repeat (apply elem_of_cons in He as [->|He]); [by eexists..|].
  by apply elem_of_nil in He.
Qed.

(** The world around the application, up to the remote servers. *)
Definition ext_with (servers : string → string + Response) : Externals := {|
  EngineState := nat;
  model_predict := λ s p img conf iou, (results img, S s);
  Raster := list byte;
  plot := λ res, ["066"%byte];
  imwrite_data := encoder;
  imwrite_known := encoder_known;
  round := round_ref;
  secure_filename := λ s, s;
  url_for_static := λ f, "/static/" +:+ f;
  requests_get := servers;
  BASE_DIR := "/app";
  classes_txt := Some ["cat "; ""]
|}.

Definition ext : Externals := ext_with remote.

Definition chunk : list byte := replicate (Z.to_nat 8192) "000"%byte.

(** 641 chunks of 8 KiB: one chunk more than 5 MiB. *)
Definition big_body : list (list byte) := replicate (Z.to_nat 641) chunk.

(** 640 chunks of 8 KiB: exactly 5 MiB. *)
Definition full_body : list (list byte) := replicate (Z.to_nat 640) chunk.

(** Servers that stream large images. *)
Definition streaming (url : string) : string + Response :=
  if decide (url = "http://example.com/big.png") then
    inr (mkResponse None (Some "image/png") big_body None)
  else if decide (url = "http://example.com/full.png") then
    inr (mkResponse None (Some "image/png") full_body None)
  else inl "connection refused".

Definition ext_streaming : Externals := ext_with streaming.

Definition world_streaming : @World ext_streaming :=
  @mkWorld ext_streaming ∅ [] 0%nat 1700000000.

Definition world : @World ext := @mkWorld ext ∅ [] 0%nat 1700000000.

Definition image : Path := mkPath "/app/static/uploads" "cat_1700000000.jpg".

(** A world whose upload directory holds one image. *)
Definition world_with_image : @World ext :=
  @mkWorld ext {[ image := ["255"%byte; "216"%byte] ]} [] 7%nat 1700000000.

(** The entry of [dets] for [box] under the table [["cat"]]. *)
Definition detection : Detection :=
  mkDetection 1 "1" (round_ref 0.87654321%float 4)
    [round_ref 10.26%float 1; round_ref 20%float 1;
     round_ref 110.75%float 1; round_ref 220.55%float 1].

Definition jpeg_bytes : list byte := ["255"%byte; "216"%byte].

Definition upload (n : string) : Request :=
  mkRequest (Some (mkFileStorage n jpeg_bytes)) None.

(** A request with both a file part and a URL. *)
Definition both : Request :=
  mkRequest (Some (mkFileStorage "cat.JPG" jpeg_bytes)) (Some "http://example.com/page").

Definition paste (url : string) : Request := mkRequest None (Some url).

End Demo.

(** ** Further notions and scenarios *)

(** A string of whitespace only, the empty string included: a sequence
    of code points that [str.isspace] accepts. *)
Inductive whitespace_only : string → Prop :=
| whitespace_only_nil : whitespace_only ""
| whitespace_only_cons (c s : string) :
    c ∈ Py.whitespace → whitespace_only s → whitespace_only (c +:+ s).

(** The string neither starts nor ends with whitespace. *)
Definition trimmed (s : string) : Prop :=
  ∀ c rest, c ∈ Py.whitespace → s ≠ c +:+ rest ∧ s ≠ rest +:+ c.

(** The chunks of a stream that carry data. *)
Definition data_chunks (chunks : list (list byte)) : list (list byte) :=
  filter (λ c : list byte, length c ≠ 0%nat) chunks.

Module Scenario.

(** Servers that fail in one way each: an error status, a response
    without content type, a stream that breaks, no answer at all. *)
Definition servers (url : string) : string + Response :=
  if decide (url = "http://example.com/missing") then
    inr (mkResponse (Some "404 Client Error: Not Found") (Some "text/html") [] None)
  else if decide (url = "http://example.com/untyped") then
    inr (mkResponse None None [["060"%byte]] None)
  else if decide (url = "http://example.com/cut.png") then
    inr (mkResponse None (Some "image/png")
           [["137"%byte; "080"%byte]; []; ["078"%byte]] (Some "Connection broken"))
  else if decide (url = "http://example.com/dog.bmp") then
    inr (mkResponse None (Some "image/bmp") [["066"%byte]; ["077"%byte]] None)
  else inl "timed out".

Definition ext : Externals := Demo.ext_with servers.

Definition world : @World ext := @mkWorld ext ∅ [] 0%nat 1700000000.

Definition world_at (t : Z) : @World ext := @mkWorld ext ∅ [] 0%nat t.

(** A deployment whose [classes.txt] holds blank lines only, one of them
    a no-break space (U+00A0). *)
Definition ext_blank : Externals := {|
  EngineState := nat;
  model_predict := λ s p img conf iou, (Demo.results img, S s);
  Raster := list byte;
  plot := λ res, ["066"%byte];
  imwrite_data := Demo.encoder;
  imwrite_known := Demo.encoder_known;
  round := Demo.round_ref;
  secure_filename := λ s, s;
  url_for_static := λ f, "/static/" +:+ f;
  requests_get := servers;
  BASE_DIR := "/app";
  classes_txt := Some ["  "; Py.code [0xC2; 0xA0]%N; ""]
|}.

(** A model whose built-in names have no entry for class 1, and no
    [classes.txt]. *)
Definition sparse_results : Results :=
  mkResults (NamesDict {[ 0 := "person"; 2 := "dog" ]}) (Some [Demo.box]).

Definition ext_sparse : Externals := {|
  EngineState := nat;
  model_predict := λ s p img conf iou, (sparse_results, S s);
  Raster := list byte;
  plot := λ res, ["066"%byte];
  imwrite_data := Demo.encoder;
  imwrite_known := Demo.encoder_known;
  round := Demo.round_ref;
  secure_filename := λ s, s;
  url_for_static := λ f, "/static/" +:+ f;
  requests_get := servers;
  BASE_DIR := "/app";
  classes_txt := None
|}.

Definition world_sparse : @World ext_sparse := @mkWorld ext_sparse ∅ [] 0%nat 1700000000.

Definition cat_file : FileStorage := mkFileStorage "cat.JPG" Demo.jpeg_bytes.





Definition cat_response : Response :=
  mkResponse None (Some "Image/JPEG") [["255"%byte; "216"%byte]; []; ["255"%byte]] None.

Definition dog_response : Response :=
  mkResponse None (Some "image/bmp") [["066"%byte]; ["077"%byte]] None.

End Scenario.

(** * Properties *)

(** ** The builtins on concrete inputs *)

Example lower_JPG : Py.lower "Photo.JPG" = "photo.jpg".
Proof. reflexivity. Qed.

(** The ideographic space (U+3000) and the no-break space (U+00A0) are
    whitespace to [str.strip]; the bytes of other code points stay. *)
Example strip_unicode :
  Py.strip (Py.code [0xE3; 0x80; 0x80]%N +:+ "http://example.com/page"
            +:+ Py.code [0xC2; 0xA0]%N)
  = "http://example.com/page".
Proof. reflexivity. Qed.

Example strip_keeps_letters :
  Py.strip (" " +:+ Py.code [0xC3; 0xA9; 0xE2; 0x82; 0xAC]%N +:+ " ")
  = Py.code [0xC3; 0xA9; 0xE2; 0x82; 0xAC]%N.
Proof. reflexivity. Qed.

Example strip_spaces : Py.strip "  http://a b  " = "http://a b".
Proof. reflexivity. Qed.

Example split_ctype : Py.split ";" "image/png; charset=x" = ["image/png"; " charset=x"].
Proof. reflexivity. Qed.

Example rsplit1_two : Py.rsplit1 "." "a.tar.gz" = ["a.tar"; "gz"].
Proof. reflexivity. Qed.

Example rsplit1_none : Py.rsplit1 "." "README" = ["README"].
Proof. reflexivity. Qed.

Example rfind_last : Py.rfind "." "a.tar.gz" = 5.
Proof. reflexivity. Qed.

Example rfind_absent : Py.rfind "." "README" = -1.
Proof. reflexivity. Qed.

Example str_neg : Py.str (-17) = "-17".
Proof. reflexivity. Qed.

Example suffix_jpg : suffix (mkPath "uploads" "cat_17.jpg") = ".jpg".
Proof. reflexivity. Qed.

Example stem_jpg : stem (mkPath "uploads" "cat_17.jpg") = "cat_17".
Proof. reflexivity. Qed.

Example suffix_hidden : suffix (mkPath "uploads" ".jpg") = "".
Proof. reflexivity. Qed.

Example splitext_two : splitext "a.tar.gz" = ("a.tar", ".gz").
Proof. reflexivity. Qed.

Example splitext_hidden : splitext "..bashrc" = ("..bashrc", "").
Proof. reflexivity. Qed.

Example splitext_plain : splitext "jpg" = ("jpg", "").
Proof. reflexivity. Qed.

(** ** Strings *)

Section StringFacts.

Lemma app_cons (c : ascii) (a b : string) : String c a +:+ b = String c (a +:+ b).
Proof. reflexivity. Qed.

Lemma app_empty_l (b : string) : "" +:+ b = b.
Proof. reflexivity. Qed.

Lemma app_empty_r (a : string) : a +:+ "" = a.
Proof. induction a as [|c a IH]; [done|]. by rewrite app_cons, IH. Qed.

Lemma app_assoc_str (a b c : string) : (a +:+ b) +:+ c = a +:+ (b +:+ c).
Proof. induction a as [|x a IH]; [done|]. by rewrite !app_cons, IH. Qed.

Lemma length_app_str (a b : string) :
  String.length (a +:+ b) = (String.length a + String.length b)%nat.
Proof. induction a as [|x a IH]; [done|]. rewrite app_cons. simpl. by rewrite IH. Qed.

Lemma contains_app (c : ascii) (a b : string) :
  Py.contains c (a +:+ b) = Py.contains c a || Py.contains c b.
Proof.
  induction a as [|x a IH]; [done|].
  rewrite app_cons. simpl. by destruct (decide (x = c)).
Qed.

(** A character occurs in a string exactly when the string can be cut
    around an occurrence of it. *)
Lemma contains_true_iff (c : ascii) (s : string) :
  Py.contains c s = true ↔ ∃ a b, s = a +:+ String c b.
Proof.
  split.
  - induction s as [|x s IH]; simpl; [done|].
    destruct (decide (x = c)) as [->|Hne]; intros H.
    + by exists "", s.
    + destruct (IH H) as (a & b & ->). by exists (String x a), b.
  - intros (a & b & ->). rewrite contains_app. simpl.
    rewrite decide_True by done. apply orb_true_r.
Qed.

Lemma after_last_None (sep : ascii) (s : string) :
  Py.after_last sep s = None ↔ Py.contains sep s = false.
Proof.
  induction s as [|x s IH]; simpl; [done|].
  destruct (Py.after_last sep s) as [t|] eqn:Ht.
  - destruct (decide (x = sep)); [done|]. split; [done|].
    intros H. by apply IH in H.
  - destruct (decide (x = sep)); [done|]. split; [|done].
    intros _. by apply IH.
Qed.

Lemma before_last_None (sep : ascii) (s : string) :
  Py.before_last sep s = None ↔ Py.contains sep s = false.
Proof.
  induction s as [|x s IH]; simpl; [done|].
  destruct (Py.before_last sep s) as [t|] eqn:Ht.
  - destruct (decide (x = sep)); [done|]. split; [done|].
    intros H. by apply IH in H.
  - destruct (decide (x = sep)); [done|]. split; [|done].
    intros _. by apply IH.
Qed.

Lemma after_last_app (sep : ascii) (a e : string) :
  Py.contains sep e = false →
  Py.after_last sep (a +:+ String sep e) = Some e.
Proof.
  intros He. apply after_last_None in He.
  induction a as [|x a IH].
  - rewrite app_empty_l. simpl. rewrite He. by rewrite decide_True.
  - rewrite app_cons. simpl. by rewrite IH.
Qed.

Lemma before_last_app (sep : ascii) (a e : string) :
  Py.contains sep e = false →
  Py.before_last sep (a +:+ String sep e) = Some a.
Proof.
  intros He. apply before_last_None in He.
  induction a as [|x a IH].
  - rewrite app_empty_l. simpl. rewrite He. by rewrite decide_True.
  - rewrite app_cons. simpl. by rewrite IH.
Qed.

(** The last occurrence: a string that contains [sep] is cut in exactly
    one way into a head, [sep], and a tail free of [sep]. *)
Lemma last_cut_exists (sep : ascii) (s : string) :
  Py.contains sep s = true →
  ∃ a e, s = a +:+ String sep e ∧ Py.contains sep e = false.
Proof.
  induction s as [|x s IH]; simpl; [done|].
  destruct (Py.contains sep s) eqn:Hs.
  - intros _. destruct IH as (a & e & -> & He); [done|].
    by exists (String x a), e.
  - destruct (decide (x = sep)) as [->|]; [|done].
    intros _. by exists "", s.
Qed.

Lemma rsplit1_cut (sep : ascii) (a e : string) :
  Py.contains sep e = false →
  Py.rsplit1 sep (a +:+ String sep e) = [a; e].
Proof.
  intros He. unfold Py.rsplit1.
  by rewrite before_last_app, after_last_app.
Qed.

Lemma rsplit1_absent (sep : ascii) (s : string) :
  Py.contains sep s = false → Py.rsplit1 sep s = [s].
Proof.
  intros Hs. unfold Py.rsplit1.
  apply before_last_None in Hs. by rewrite Hs.
Qed.

End StringFacts.

(** ** File names and extensions *)

Section Extensions.

Lemma no_extension_iff (f : string) : no_extension f ↔ Py.contains "." f = false.
Proof.
  split.
  - intros Hno. destruct (Py.contains "." f) eqn:Hc; [|done].
    apply contains_true_iff in Hc as (a & b & ->). by destruct (Hno a b).
  - intros Hc a b ->.
    assert (Py.contains "." (a +:+ "." +:+ b) = true) as Ht
      by (apply contains_true_iff; by exists a, b).
    congruence.
Qed.

Lemma extension_after_last (f e : string) :
  extension f e ↔ Py.after_last "." f = Some e.
Proof.
  split.
  - intros [[a ->] He%no_extension_iff]. by apply after_last_app.
  - intros Hf.
    assert (Py.contains "." f = true) as Hc.
    { destruct (Py.contains "." f) eqn:Hc; [done|].
      apply after_last_None in Hc. congruence. }
    apply last_cut_exists in Hc as (a & e' & -> & He').
    rewrite after_last_app in Hf by done. simplify_eq.
    split; [by exists a|by apply no_extension_iff].
Qed.

Lemma extension_unique (f e1 e2 : string) :
  extension f e1 → extension f e2 → e1 = e2.
Proof. rewrite !extension_after_last. congruence. Qed.

(** A file name has no extension, or exactly one. *)
Lemma extension_cases (f : string) : no_extension f ∨ ∃ e, extension f e.
Proof.
  destruct (Py.after_last "." f) as [e|] eqn:He.
  - right. exists e. by apply extension_after_last.
  - left. apply no_extension_iff. by apply after_last_None.
Qed.

Lemma extension_allowed_iff (e : string) :
  extension_allowed e ↔ Py.lower e ∈ ALLOWED_EXTS.
Proof.
  unfold extension_allowed, same_ignoring_case, ALLOWED_EXTS. split.
  - intros (a & Ha & ->). set_unfold.
    destruct Ha as [->|[->|[->|[->|[]]]]]; simpl; auto.
  - set_unfold.
    intros [[[H|H]|H]|H]; [exists "jpg"|exists "jpeg"|exists "png"|exists "bmp"];
      (split; [auto 6|by rewrite H]).
Qed.

(** [allowed] accepts exactly the names whose extension is allowed. *)
Lemma allowed_true_iff (f : string) :
  allowed f = true ↔ ∃ e, extension f e ∧ extension_allowed e.
Proof.
  unfold allowed. split.
  - intros [Hc He]%andb_true_iff.
    apply last_cut_exists in Hc as (a & e & -> & Hfree).
    rewrite rsplit1_cut in He by done. simpl in He.
    apply bool_decide_eq_true in He. exists e. split.
    + split; [by exists a|by apply no_extension_iff].
    + by apply extension_allowed_iff.
  - intros (e & [[a ->] Hfree%no_extension_iff] & He%extension_allowed_iff).
    change ("." +:+ e) with (String "." e).
    rewrite contains_app. simpl. rewrite orb_true_r. simpl.
    rewrite rsplit1_cut by done. simpl. by apply bool_decide_eq_true.
Qed.

Lemma allowed_false_iff (f : string) :
  allowed f = false ↔
  no_extension f ∨ ∃ e, extension f e ∧ ¬ extension_allowed e.
Proof.
  split.
  - intros Hf. destruct (extension_cases f) as [?|[e He]]; [by left|].
    right. exists e. split; [done|]. intros Ha.
    assert (allowed f = true) by (apply allowed_true_iff; eauto). congruence.
  - intros H. destruct (allowed f) eqn:Hf; [|done].
    apply allowed_true_iff in Hf as (e & He & Ha).
    destruct H as [Hno|(e' & He' & Hna)].
    + destruct He as [[a ->] _]. by destruct (Hno a e).
    + by rewrite (extension_unique _ _ _ He' He) in Hna.
Qed.

End Extensions.

(** ** Paths *)

Section PathFacts.

Lemma take_drop_str (n : nat) (s : string) : Py.take n s +:+ Py.drop n s = s.
Proof.
  revert s. induction n as [|n IH]; intros [|c s]; simpl; try done.
  by rewrite app_cons, IH.
Qed.

(** The stem and the suffix of a path make up its final component. *)
Lemma stem_suffix (p : Path) : stem p +:+ suffix p = name p.
Proof.
  unfold stem, suffix.
  destruct ((0 <? Py.rfind "." (name p)) && _)%Z.
  - apply take_drop_str.
  - apply app_empty_r.
Qed.

Lemma annotated_name_length (p : Path) :
  String.length (name (annotated_beside p)) = (String.length (name p) + 10)%nat.
Proof.
  simpl. rewrite <- (stem_suffix p).
  rewrite !length_app_str. simpl. lia.
Qed.

(** The annotated file never is the source image itself. *)
Lemma annotated_beside_ne (p : Path) : annotated_beside p ≠ p.
Proof.
  intros Heq. pose proof (annotated_name_length p) as Hlen.
  rewrite Heq in Hlen. lia.
Qed.

Lemma annotated_beside_parent (p : Path) : parent (annotated_beside p) = parent p.
Proof. reflexivity. Qed.

Lemma take_app_length (a b : string) : Py.take (String.length a) (a +:+ b) = a.
Proof.
  induction a as [|x a IH]; [by destruct b|].
  rewrite app_cons. simpl. by rewrite IH.
Qed.

Lemma drop_app_length (a b : string) : Py.drop (String.length a) (a +:+ b) = b.
Proof.
  induction a as [|x a IH]; [by destruct b|].
  rewrite app_cons. simpl. by rewrite IH.
Qed.

Lemma rfind_absent_neg (c : ascii) (s : string) :
  Py.contains c s = false → Py.rfind c s = (-1)%Z.
Proof.
  induction s as [|x s IH]; simpl; [done|].
  destruct (decide (x = c)); [done|]. intros Hs. by rewrite IH.
Qed.

Lemma rfind_cut (c : ascii) (a e : string) :
  Py.contains c e = false →
  Py.rfind c (a +:+ String c e) = Z.of_nat (String.length a).
Proof.
  intros He. induction a as [|x a IH].
  - rewrite app_empty_l. simpl. rewrite rfind_absent_neg by done.
    simpl. by rewrite decide_True.
  - rewrite app_cons. cbn [Py.rfind String.length]. rewrite IH.
    rewrite (proj2 (Z.leb_le 0 _)) by lia. lia.
Qed.

(** [os.path.splitext] on a plain file name with an extension. *)
Lemma splitext_cut (a e : string) :
  Py.contains "/" (a +:+ String "." e) = false →
  Py.contains "." e = false →
  Py.lstrip_char "." a ≠ "" →
  splitext (a +:+ String "." e) = (a, String "." e).
Proof.
  intros Hsep He Ha. unfold splitext.
  rewrite rfind_absent_neg, rfind_cut by done.
  rewrite (proj2 (Z.ltb_lt (-1) _)) by lia.
  replace (Z.to_nat (Z.of_nat (String.length a) - (-1 + 1))) with (String.length a) by lia.
  replace (Z.to_nat (-1 + 1)) with 0%nat by lia.
  replace (Py.drop 0 (a +:+ String "." e)) with (a +:+ String "." e)
    by (by destruct (a +:+ String "." e)).
  rewrite Nat2Z.id, take_app_length, drop_app_length.
  by rewrite decide_False.
Qed.

(** [p.stem] and [p.suffix] of a name with a non-empty last extension and
    something before it. *)
Lemma stem_suffix_cut (d a e : string) :
  Py.contains "." e = false → a ≠ "" → e ≠ "" →
  stem (mkPath d (a +:+ String "." e)) = a ∧
  suffix (mkPath d (a +:+ String "." e)) = String "." e.
Proof.
  intros He Ha Hne. unfold stem, suffix. cbn [name].
  rewrite rfind_cut by done. unfold Py.len. rewrite length_app_str. simpl.
  assert (0 < String.length a)%nat by (destruct a; simpl; [done|lia]).
  assert (0 < String.length e)%nat by (destruct e; simpl; [done|lia]).
  rewrite (proj2 (Z.ltb_lt 0 _)), (proj2 (Z.ltb_lt _ _)) by lia.
  simpl. by rewrite Nat2Z.id, take_app_length, drop_app_length.
Qed.

End PathFacts.

(** ** Class names *)

Section ClassNames.

Lemma names_lookup_dict_wf (d : gmap Z string) (i : Z) :
  names_well_formed (NamesDict d) →
  is_Some (d !! i) ↔ (0 ≤ i < Z.of_nat (size d))%Z.
Proof.
  simpl. intros Hwf. rewrite <- elem_of_dom, Hwf.
  rewrite elem_of_list_to_set, elem_of_seqZ. lia.
Qed.

(** On a well-formed table and a non-negative id, the expression
    [names[cls_id] if names and cls_id < len(names) else str(cls_id)]
    raises nothing: it is the table's entry, or the id as a string. *)
Lemma resolve_class_name_lookup (ns : Names) (cls_id : Z) :
  (0 ≤ cls_id)%Z → names_well_formed ns →
  resolve_class_name ns cls_id = Ok (default (Py.str cls_id) (names_lookup ns cls_id)).
Proof.
  intros Hpos Hwf. unfold resolve_class_name.
  destruct ns as [l|d]; simpl.
  - rewrite (proj2 (Z.leb_le 0 cls_id)) by done.
    destruct l as [|c l]; [done|].
    rewrite bool_decide_eq_false_2 by done. simpl negb. rewrite andb_true_l.
    destruct (cls_id <? Z.of_nat (length (c :: l)))%Z eqn:Hlt.
    + apply Z.ltb_lt in Hlt.
      rewrite (proj2 (Z.ltb_ge cls_id 0)) by done.
      rewrite (proj2 (Z.leb_le 0 cls_id)), (proj2 (Z.ltb_lt _ _) Hlt) by done.
      simpl andb. cbv iota.
      destruct (lookup_lt_is_Some_2 (c :: l) (Z.to_nat cls_id)) as [s Hs]; [lia|].
      by rewrite Hs.
    + apply Z.ltb_ge in Hlt.
      by rewrite (lookup_ge_None_2 (c :: l) (Z.to_nat cls_id)) by lia.
  - pose proof (names_lookup_dict_wf d cls_id Hwf) as Hd.
    destruct (decide (d = ∅)) as [->|Hne].
    + rewrite bool_decide_eq_true_2 by done. simpl. by rewrite lookup_empty.
    + rewrite bool_decide_eq_false_2 by done. simpl negb. rewrite andb_true_l.
      destruct (cls_id <? Z.of_nat (size d))%Z eqn:Hlt.
      * apply Z.ltb_lt in Hlt.
        destruct (proj2 Hd) as [s Hs]; [lia|]. by rewrite Hs.
      * apply Z.ltb_ge in Hlt.
        destruct (d !! cls_id) as [s|] eqn:Hs; [|done].
        assert (0 ≤ cls_id < Z.of_nat (size d))%Z by (apply Hd; eauto). lia.
Qed.

End ClassNames.

(** ** Detection invocation *)

Section Detection.

Context `{ext : Externals}.

Lemma collect_dets_box_list (ns : Names) (res : Results) :
  match boxes res with
  | Some (b :: bs) => collect_dets ns (b :: bs)
  | _ => Ok []
  end = collect_dets ns (box_list res).
Proof. unfold box_list. by destruct (boxes res) as [[|b bs]|]. Qed.

(** [run_yolo] in one equation: the engine is called once; if every class
    name resolves and OpenCV can encode the annotated raster, it is
    written beside the image and the detections are returned with its
    path; otherwise the exception leaves before anything is written. *)
Lemma run_yolo_eq (p : Path) (conf iou : float) (w : World) :
  run_yolo p conf iou w =
  match collect_dets (select_names (engine_result w p conf iou))
          (box_list (engine_result w p conf iou)) with
  | Ok dets =>
      match annotated_data w p conf iou with
      | Some data => (Ok (dets, annotated_beside p), after_run_yolo w p conf iou data)
      | None => (Raise CvError, after_engine w p conf iou)
      end
  | Raise e => (Raise e, after_engine w p conf iou)
  end.
Proof.
  unfold run_yolo, cv2_imwrite, bind, predict_first, lift, ret, bind.
  unfold annotated_data, after_run_yolo, after_engine, engine_result, engine_next.
  destruct (model_predict (engine w) p (fs w !! p) conf iou) as [res e'] eqn:Hres.
  cbn [fst snd]. rewrite collect_dets_box_list.
  destruct (collect_dets (select_names res) (box_list res)); [|done].
  unfold annotated_beside, path_join.
  by destruct (imwrite_data _ _).
Qed.

Lemma collect_dets_Forall2 (ns : Names) (bs : list Box) (ds : list Detection) :
  collect_dets ns bs = Ok ds →
  Forall2 (λ b d, detection_of ns b = Ok d) bs ds.
Proof.
  revert ds. induction bs as [|b bs IH]; simpl; intros ds Hds.
  - simplify_eq. constructor.
  - destruct (detection_of ns b) as [d|] eqn:Hd; simpl in Hds; [|done].
    destruct (collect_dets ns bs) as [ds'|] eqn:Hds'; simpl in Hds; [|done].
    simplify_eq. constructor; auto.
Qed.

Lemma collect_dets_total (ns : Names) (bs : list Box) :
  Forall (λ b, ∃ s, resolve_class_name ns (box_cls b) = Ok s) bs →
  ∃ ds, collect_dets ns bs = Ok ds.
Proof.
  induction 1 as [|b bs [s Hs] _ [ds IH]]; simpl; [by eexists|].
  unfold detection_of. rewrite Hs. destruct (box_xyxy b) as [[[x1 y1] x2] y2].
  simpl. rewrite IH. simpl. by eexists.
Qed.

(** The fields of a detection, read off the box it was made from. *)
Lemma detection_of_fields (ns : Names) (b : Box) (d : Detection) :
  detection_of ns b = Ok d →
  class_id d = box_cls b ∧
  resolve_class_name ns (box_cls b) = Ok (class_name d) ∧
  confidence d = round (box_conf b) 4 ∧
  box_xyxy_rounded d =
    [round (box_xyxy b).1.1.1 1; round (box_xyxy b).1.1.2 1;
     round (box_xyxy b).1.2 1; round (box_xyxy b).2 1].
Proof.
  unfold detection_of. destruct (box_xyxy b) as [[[x1 y1] x2] y2].
  destruct (resolve_class_name ns (box_cls b)) as [s|]; simpl; [|done].
  intros [= <-]. done.
Qed.

(** Resolving names raises index and key errors only, never an exception
    of the [requests] family. *)
Lemma resolve_class_name_not_request (ns : Names) (cls_id : Z) (msg : string) :
  resolve_class_name ns cls_id ≠ Raise (RequestException msg).
Proof.
  unfold resolve_class_name, names_getitem.
  destruct (names_truthy ns && _); [|done].
  destruct ns as [l|d].
  - destruct (_ && _); [|done]. by destruct (l !! _).
  - by destruct (d !! cls_id).
Qed.

Lemma collect_dets_not_request (ns : Names) (bs : list Box) (msg : string) :
  collect_dets ns bs ≠ Raise (RequestException msg).
Proof.
  induction bs as [|b bs IH]; simpl; [done|].
  unfold detection_of at 1. destruct (box_xyxy b) as [[[x1 y1] x2] y2].
  pose proof (resolve_class_name_not_request ns (box_cls b) msg) as Hr.
  destruct (resolve_class_name ns (box_cls b)) as [s|ex]; simpl; [|congruence].
  destruct (collect_dets ns bs) as [ds|ex]; simpl; [done|congruence].
Qed.

(** With well-formed built-in names and non-negative class ids the loop
    over the boxes raises nothing: the invocation returns if OpenCV can
    encode the annotated image, and raises [cv2.error] if it cannot. *)
Lemma run_yolo_returns (p : Path) (conf iou : float) (w : World) :
  names_well_formed (names (engine_result w p conf iou)) →
  Forall (λ b, 0 ≤ box_cls b)%Z (box_list (engine_result w p conf iou)) →
  ∃ dets,
    collect_dets (select_names (engine_result w p conf iou))
      (box_list (engine_result w p conf iou)) = Ok dets ∧
    run_yolo p conf iou w =
      match annotated_data w p conf iou with
      | Some data => (Ok (dets, annotated_beside p), after_run_yolo w p conf iou data)
      | None => (Raise CvError, after_engine w p conf iou)
      end.
Proof.
  intros Hwf Hpos.
  destruct (collect_dets_total (select_names (engine_result w p conf iou))
              (box_list (engine_result w p conf iou))) as [dets Hdets].
  - eapply Forall_impl; [exact Hpos|]. intros b Hb. simpl in Hb.
    eexists. apply resolve_class_name_lookup; [done|].
    unfold select_names. by destruct CUSTOM_NAMES as [[|c cs]|].
  - exists dets. split; [done|]. by rewrite run_yolo_eq, Hdets.
Qed.

(** The image the engine reads is untouched by an invocation. *)
Lemma run_yolo_keeps_image (p : Path) (conf iou : float) (w : World) :
  fs (run_yolo p conf iou w).2 !! p = fs w !! p.
Proof.
  rewrite run_yolo_eq.
  destruct (collect_dets _ _); [destruct (annotated_data _ _ _ _)|]; simpl; [|done..].
  apply lookup_insert_ne, annotated_beside_ne.
Qed.

Lemma run_yolo_clock (p : Path) (conf iou : float) (w : World) :
  clock (run_yolo p conf iou w).2 = clock w.
Proof.
  rewrite run_yolo_eq.
  by destruct (collect_dets _ _); [destruct (annotated_data _ _ _ _)|].
Qed.

(** An invocation fetches nothing from the network. *)
Lemma run_yolo_net_requests (p : Path) (conf iou : float) (w : World) :
  net_requests (trace (run_yolo p conf iou w).2) = net_requests (trace w).
Proof.
  rewrite run_yolo_eq.
  destruct (collect_dets _ _); [destruct (annotated_data _ _ _ _)|]; simpl; [|done..].
  unfold net_requests. rewrite omap_app. simpl. by rewrite app_nil_r.
Qed.

End Detection.

Section DetectionClaims.

Context `{ext : Externals}.

Lemma Forall2_under_Forall {A B} (P : A → Prop) (R Q : A → B → Prop)
    (l : list A) (k : list B) :
  Forall P l → Forall2 R l k → (∀ a b, P a → R a b → Q a b) → Forall2 Q l k.
Proof.
  intros HP HR Himp. revert HP.
  induction HR as [|a b l k Hab _ IH]; intros HP; [constructor|].
  inversion HP; subst. constructor; auto.
Qed.

Lemma select_names_single_table (res : Results) (cls_id : Z) :
  default (Py.str cls_id) (names_lookup (select_names res) cls_id) =
  single_table_class_name CUSTOM_NAMES (names res) cls_id.
Proof.
  unfold select_names, single_table_class_name.
  by destruct CUSTOM_NAMES as [[|c cs]|].
Qed.

Lemma select_names_well_formed (res : Results) :
  names_well_formed (names res) → names_well_formed (select_names res).
Proof. unfold select_names. by destruct CUSTOM_NAMES as [[|c cs]|]. Qed.

(** C1 (amended): for every detected box of an invocation on well-formed
    engine output (non-negative class ids, built-in names keyed
    [0 .. n-1]), the class name is resolved in ONE table: the loaded
    ClassNameTable when it is non-empty, its entry if the class id is
    within its range and the stringified id otherwise (the built-in names
    are then not consulted); the engine's built-in names when no table is
    loaded, the entry if there is one and the stringified id otherwise.
    The name is never left undefined: resolving the names raises nothing,
    and the detections so named are what the invocation returns, unless
    OpenCV has no writer for the annotated image and [cv2.imwrite]
    raises. *)
Theorem class_name_single_table (p : Path) (conf iou : float) (w : World) :
  names_well_formed (names (engine_result w p conf iou)) →
  Forall (λ b, 0 ≤ box_cls b)%Z (box_list (engine_result w p conf iou)) →
  ∃ dets,
    run_yolo p conf iou w =
      match annotated_data w p conf iou with
      | Some data => (Ok (dets, annotated_beside p), after_run_yolo w p conf iou data)
      | None => (Raise CvError, after_engine w p conf iou)
      end ∧
    Forall2
      (λ b d, class_name d =
              single_table_class_name CUSTOM_NAMES
                (names (engine_result w p conf iou)) (box_cls b))
      (box_list (engine_result w p conf iou)) dets.
Proof.
  intros Hwf Hpos.
  destruct (run_yolo_returns p conf iou w Hwf Hpos) as (dets & Hdets & Hrun).
  exists dets. split; [done|].
  apply collect_dets_Forall2 in Hdets.
  eapply Forall2_under_Forall; [exact Hpos|exact Hdets|].
  intros b d Hb Hd. simpl in Hb.
  apply detection_of_fields in Hd as (_ & Hname & _).
  rewrite resolve_class_name_lookup in Hname
    by (done || by apply select_names_well_formed).
  rewrite <- select_names_single_table. congruence.
Qed.

(** C6: every detection of an invocation carries the engine's confidence
    rounded to 4 decimal places and the engine's four box coordinates
    rounded to 1 decimal place, box by box and in the engine's order. *)
Theorem detections_rounded (p : Path) (conf iou : float) (w w' : World)
    (dets : list Detection) (ap : Path) :
  run_yolo p conf iou w = (Ok (dets, ap), w') →
  Forall2
    (λ b d, let '(x1, y1, x2, y2) := box_xyxy b in
            confidence d = round (box_conf b) 4 ∧
            box_xyxy_rounded d = [round x1 1; round y1 1; round x2 1; round y2 1])
    (box_list (engine_result w p conf iou)) dets.
Proof.
  rewrite run_yolo_eq.
  destruct (collect_dets _ _) as [ds|] eqn:Hds; [|done].
  destruct (annotated_data w p conf iou) as [data|]; [|done].
  intros [= <- <- <-]. apply collect_dets_Forall2 in Hds.
  eapply Forall2_impl; [exact Hds|]. intros b d Hd. simpl in Hd.
  apply detection_of_fields in Hd as (_ & _ & Hconf & Hbox).
  by destruct (box_xyxy b) as [[[x1 y1] x2] y2].
Qed.


(** C8: with a deterministic engine, a second invocation on the same
    saved image with the same thresholds yields what the first one
    yielded: the same rounded detection list (and the same annotated
    path). *)
Theorem detection_idempotent (p : Path) (conf iou : float) (w : World) :
  deterministic_engine →
  (run_yolo p conf iou (run_yolo p conf iou w).2).1 = (run_yolo p conf iou w).1.
Proof.
  intros Hdet.
  assert (engine_result (run_yolo p conf iou w).2 p conf iou
          = engine_result w p conf iou) as Hres.
  { unfold engine_result. rewrite run_yolo_keeps_image. apply Hdet. }
  assert (annotated_data (run_yolo p conf iou w).2 p conf iou
          = annotated_data w p conf iou) as Hdata
    by (unfold annotated_data; by rewrite Hres).
  rewrite (run_yolo_eq p conf iou (run_yolo p conf iou w).2), Hres, Hdata.
  generalize (run_yolo p conf iou w).2. intros w1.
  rewrite (run_yolo_eq p conf iou w).
  destruct (collect_dets _ _); [|done].
  by destruct (annotated_data w p conf iou).
Qed.

End DetectionClaims.

(** ** Bounded streaming download *)

Section Download.

Context `{ext : Externals}.

Lemma stream_size_nonneg (chunks : list (list byte)) : (0 ≤ stream_size chunks)%Z.
Proof. induction chunks as [|c chunks IH]; simpl; lia. Qed.

Lemma stream_size_concat (chunks : list (list byte)) :
  stream_size chunks = Z.of_nat (length (concat chunks)).
Proof.
  induction chunks as [|c chunks IH]; simpl; [done|].
  rewrite length_app, IH. lia.
Qed.

(** Once the running total passes the cap the loop removes the file and
    stops, whatever the rest of the stream holds. *)
Lemma save_stream_too_large (p : Path) (chunks : list (list byte))
    (err : option string) (total : Z) (w : World) :
  (MAX_DOWNLOAD_BYTES < total + stream_size chunks)%Z →
  (total ≤ MAX_DOWNLOAD_BYTES)%Z →
  save_stream p chunks err total w =
  (Ok true, world_after w (delete p (fs w)) [EvRemove p]).
Proof.
  revert total w. induction chunks as [|chunk rest IH]; intros total w Hbig Hle.
  - simpl in Hbig. lia.
  - destruct chunk as [|b chunk].
    + simpl in *. by apply IH.
    + cbn [save_stream stream_size foldr] in *.
      fold (stream_size rest) in Hbig.
      destruct (MAX_DOWNLOAD_BYTES <? total + Z.of_nat (length (b :: chunk)))%Z eqn:Hcut.
      * reflexivity.
      * apply Z.ltb_ge in Hcut.
        unfold bind, append_file, set_fs at 1.
        rewrite IH by (cbn [fs]; lia).
        unfold world_after. cbn [fs trace engine clock].
        by rewrite delete_alter_eq.
Qed.

(** A stream within the cap is written to its end, chunk after chunk. *)
Lemma save_stream_within (p : Path) (chunks : list (list byte))
    (err : option string) (total : Z) (w : World) :
  (total + stream_size chunks ≤ MAX_DOWNLOAD_BYTES)%Z →
  save_stream p chunks err total w =
  (match err with
   | Some msg => Raise (RequestException msg)
   | None => Ok false
   end,
   world_after w (alter (λ old, (old ++ concat chunks)%list) p (fs w)) []).
Proof.
  revert total w. induction chunks as [|chunk rest IH]; intros total w Hle.
  - simpl. unfold world_after. rewrite app_nil_r.
    rewrite alter_id by (intros; simpl; apply app_nil_r).
    destruct w. by destruct err.
  - pose proof (stream_size_nonneg rest) as Hrest.
    destruct chunk as [|b chunk].
    + simpl in *. by apply IH.
    + cbn [save_stream stream_size foldr] in *.
      fold (stream_size rest) in Hle.
      rewrite (proj2 (Z.ltb_ge _ _)) by lia.
      unfold bind, append_file, set_fs at 1.
      rewrite IH by (cbn [fs]; lia).
      unfold world_after. cbn [fs trace engine clock concat].
      rewrite alter_alter_eq. f_equal. f_equal.
      apply alter_ext. intros old _. simpl. by rewrite <- app_assoc.
Qed.

End Download.

(** ** The route [/predict] *)

Section Predict.

Context `{ext : Externals}.

Lemma startswith_iff (p s : string) : Py.startswith p s = true ↔ starts_with p s.
Proof.
  unfold Py.startswith, starts_with. revert s.
  induction p as [|a p IH]; intros s.
  - split; [by exists s|by destruct s].
  - destruct s as [|b s]; simpl.
    { split; [done|]. intros [rest Hrest]. by rewrite app_cons in Hrest. }
    destruct (ascii_dec a b) as [->|Hne].
    + rewrite IH. split; intros [rest Hrest]; exists rest.
      * by rewrite Hrest.
      * rewrite app_cons in Hrest. congruence.
    + split; [done|]. intros [rest Hrest]. rewrite app_cons in Hrest. congruence.
Qed.

Lemma uploaded_no_upload (request : Request) :
  no_upload request → uploaded (files_image request) = None.
Proof.
  unfold no_upload, uploaded. intros Hno.
  destruct (files_image request) as [f|]; [|done].
  by rewrite bool_decide_eq_true_2 by auto.
Qed.

Lemma uploaded_file (request : Request) (f : FileStorage) :
  files_image request = Some f → filename f ≠ "" →
  uploaded (files_image request) = Some f.
Proof.
  unfold uploaded. intros -> Hf. by rewrite bool_decide_eq_false_2.
Qed.

(** Without a usable file part the handler looks at the URL field only. *)
Lemma predict_without_upload (request : Request) (w : World) :
  no_upload request →
  predict request w =
  if bool_decide (submitted_url request = "")
  then (Ok (error_page "Please upload a file or provide an image URL"), w)
  else predict_url (submitted_url request) w.
Proof.
  intros Hno. unfold predict. rewrite uploaded_no_upload by done.
  fold (submitted_url request). by case_bool_decide.
Qed.

(** With a usable file part the handler takes the upload path. *)
Lemma predict_with_upload (request : Request) (f : FileStorage) (w : World) :
  files_image request = Some f → filename f ≠ "" →
  predict request w = predict_upload f w.
Proof. intros Hf Hn. unfold predict. by rewrite (uploaded_file _ f). Qed.

Lemma mime_lookup_Some (t e : string) :
  ALLOWED_MIME_TO_EXT !! t = Some e ↔
  (t, e) ∈ [("image/jpeg", "jpg"); ("image/png", "png"); ("image/bmp", "bmp")].
Proof.
  unfold ALLOWED_MIME_TO_EXT. rewrite !elem_of_cons, elem_of_nil.
  rewrite !lookup_insert_Some, lookup_singleton_Some.
  destruct (decide ("image/bmp" = t)); destruct (decide ("image/png" = t));
    intuition congruence.
Qed.


(** The URL path up to the content-type check: one GET is made, and the
    rest of the handler runs on the response. *)
Lemma predict_url_fetched (url : string) (r : Response) (w : World) :
  starts_with "http://" url ∨ starts_with "https://" url →
  requests_get url = inr r → status_error r = None →
  predict_url url w =
  try_except_RequestException
    (match ALLOWED_MIME_TO_EXT !! media_type r with
     | None => ret (error_page ("URL is not an image (got " +:+ media_type r +:+ ")"))
     | Some e =>
         do unique <- unique_name "url" ("." +:+ e) ;;
         run write_file (path_join UPLOAD_DIR unique) [] ;;
         do too_large <- save_stream (path_join UPLOAD_DIR unique)
                           (body_chunks r) (body_error r) 0 ;;
         if too_large then ret (error_page "Image too large (>5MB)")
         else
           do res <- run_yolo (path_join UPLOAD_DIR unique) DEFAULT_CONF DEFAULT_IOU ;;
           ret (result_page res.1 res.2)
     end)
    (λ e, ret (error_page ("Failed to fetch URL: " +:+ e)))
    (world_after w (fs w) [EvGet url]).
Proof.
  intros Hscheme Hget Hstatus. unfold predict_url.
  assert (Py.startswith "http://" url || Py.startswith "https://" url = true) as ->.
  { apply orb_true_iff. by rewrite !startswith_iff. }
  cbn [negb].
  unfold try_except_RequestException, http_get, raise_for_status.
  unfold bind at 1 2 3. unfold log. rewrite Hget. unfold ret at 1.
  cbv beta iota. rewrite Hstatus. reflexivity.
Qed.

(** The URL path up to the download loop: the file is created empty
    under the synthesized name [url_{timestamp}.{ext}]. *)
Lemma predict_url_opened (url : string) (r : Response) (e : string) (w : World) :
  starts_with "http://" url ∨ starts_with "https://" url →
  requests_get url = inr r → status_error r = None →
  ALLOWED_MIME_TO_EXT !! media_type r = Some e →
  predict_url url w =
  try_except_RequestException
    (do too_large <- save_stream (download_path (clock w) e)
                       (body_chunks r) (body_error r) 0 ;;
     if too_large then ret (error_page "Image too large (>5MB)")
     else
       do res <- run_yolo (download_path (clock w) e) DEFAULT_CONF DEFAULT_IOU ;;
       ret (result_page res.1 res.2))
    (λ e, ret (error_page ("Failed to fetch URL: " +:+ e)))
    (world_after w (<[download_path (clock w) e := []]> (fs w))
       [EvGet url; EvWrite (download_path (clock w) e)]).
Proof.
  intros Hscheme Hget Hstatus Hmime.
  rewrite (predict_url_fetched url r w) by done. rewrite Hmime.
  unfold try_except_RequestException.
  unfold bind at 1 2. unfold unique_name, time_time, bind at 1, ret at 1.
  unfold write_file, bind at 1, log, set_fs.
  unfold world_after, download_path. cbn [fs trace engine clock].
  rewrite <- app_assoc. reflexivity.
Qed.

(** The upload path once the extension check is passed: the file is
    saved under its unique name and the detector is run on it. *)
Lemma predict_upload_accepted (f : FileStorage) (w : World) :
  allowed (filename f) = true →
  predict_upload f w =
  (match (run_yolo (upload_path_of (clock w) (filename f)) DEFAULT_CONF DEFAULT_IOU
            (world_after w
               (<[upload_path_of (clock w) (filename f) := file_content f]> (fs w))
               [EvWrite (upload_path_of (clock w) (filename f))])).1 with
   | Ok res => Ok (result_page res.1 res.2)
   | Raise e => Raise e
   end,
   (run_yolo (upload_path_of (clock w) (filename f)) DEFAULT_CONF DEFAULT_IOU
      (world_after w
         (<[upload_path_of (clock w) (filename f) := file_content f]> (fs w))
         [EvWrite (upload_path_of (clock w) (filename f))])).2).
Proof.
  intros Hok. unfold predict_upload, upload_path_of. rewrite Hok. cbn [negb].
  destruct (splitext (secure_filename (filename f))) as [base ex].
  unfold bind at 1, unique_name, time_time, bind at 1, ret at 1.
  unfold bind at 1, write_file, bind at 1, log, set_fs.
  unfold bind at 1, world_after. cbn [fs trace engine clock fst snd].
  by destruct (run_yolo _ _ _ _) as [[res|e] w2].
Qed.

Lemma net_requests_app (t1 t2 : list Event) :
  net_requests (t1 ++ t2) = (net_requests t1 ++ net_requests t2)%list.
Proof. apply omap_app. Qed.

(** The upload path fetches nothing from the network. *)
Lemma predict_upload_net_requests (f : FileStorage) (w : World) :
  net_requests (trace (predict_upload f w).2) = net_requests (trace w).
Proof.
  destruct (allowed (filename f)) eqn:Hok.
  - rewrite predict_upload_accepted by done. cbn [snd].
    rewrite run_yolo_net_requests. cbn [world_after trace].
    rewrite net_requests_app. simpl. apply app_nil_r.
  - unfold predict_upload. by rewrite Hok.
Qed.

End Predict.

Section PredictClaims.

Context `{ext : Externals}.

(** C3: an upload whose file name has no extension, or whose extension,
    letter case apart, is none of jpg, jpeg, png, bmp, is answered with
    "Unsupported file type" and leaves the world as it was: no file is
    written.  An upload with an allowed extension passes the check: the
    answer is not that error, and the upload is stored in the upload
    directory. *)
Theorem unsupported_file_type (request : Request) (f : FileStorage) (w : World) :
  files_image request = Some f → filename f ≠ "" →
  ((no_extension (filename f) ∨
    ∃ e, extension (filename f) e ∧ ¬ extension_allowed e) →
   predict request w = (Ok (error_page "Unsupported file type"), w)) ∧
  ((∃ e, extension (filename f) e ∧ extension_allowed e) →
   (predict request w).1 ≠ Ok (error_page "Unsupported file type") ∧
   fs (predict request w).2 !! upload_path_of (clock w) (filename f)
     = Some (file_content f)).
Proof.
  intros Hf Hname. rewrite (predict_with_upload request f w) by done. split.
  - intros Hbad%allowed_false_iff. unfold predict_upload. by rewrite Hbad.
  - intros Hgood%allowed_true_iff.
    rewrite predict_upload_accepted by done. cbn [fst snd]. split.
    + by destruct (run_yolo _ _ _ _).1 as [res|e].
    + rewrite run_yolo_keeps_image. cbn [world_after fs].
      apply lookup_insert_eq.
Qed.

(** C4 (amended): on the URL path (no usable file part), an [image_url]
    that, once its surrounding whitespace is removed, is non-empty and
    starts with neither "http://" nor "https://" is answered with
    "Only http/https URLs are allowed" and leaves the world as it was: no
    network request is made. *)
Theorem url_scheme_rejected (request : Request) (w : World) :
  no_upload request → submitted_url request ≠ "" →
  ¬ starts_with "http://" (submitted_url request) →
  ¬ starts_with "https://" (submitted_url request) →
  predict request w = (Ok (error_page "Only http/https URLs are allowed"), w) ∧
  net_requests (trace (predict request w).2) = net_requests (trace w).
Proof.
  intros Hno Hurl Hhttp Hhttps.
  assert (predict request w
          = (Ok (error_page "Only http/https URLs are allowed"), w)) as ->; [|done].
  rewrite predict_without_upload by done.
  rewrite bool_decide_eq_false_2 by done. unfold predict_url.
  rewrite <- startswith_iff in Hhttp, Hhttps.
  apply not_true_is_false in Hhttp, Hhttps. by rewrite Hhttp, Hhttps.
Qed.


(** C9: a request with a file part of non-empty name takes the upload
    path, whatever its [image_url] field holds: the URL is not fetched,
    and no other network request is made. *)
Theorem upload_takes_precedence (request : Request) (f : FileStorage) (w : World) :
  files_image request = Some f → filename f ≠ "" →
  predict request w = predict_upload f w ∧
  (∀ url, predict (mkRequest (Some f) url) w = predict request w) ∧
  net_requests (trace (predict request w).2) = net_requests (trace w).
Proof.
  intros Hf Hname. rewrite (predict_with_upload request f w) by done.
  split; [done|]. split; [|apply predict_upload_net_requests].
  intros url. by apply predict_with_upload.
Qed.


(** C2: on a URL download of an allowed media type, a stream of more
    than 5 MiB is cut: the answer is "Image too large (>5MB)", the partial
    file is removed, so that no file of this attempt is left in the upload
    directory, and nothing else has changed on disk.  A stream of at most
    5 MiB is not rejected by this check: the answer is not that error, and
    the file holds every byte received. *)
Theorem download_size_cap (request : Request) (r : Response) (e : string) (w : World) :
  no_upload request → submitted_url request ≠ "" →
  starts_with "http://" (submitted_url request) ∨
    starts_with "https://" (submitted_url request) →
  requests_get (submitted_url request) = inr r → status_error r = None →
  (media_type r, e) ∈ [("image/jpeg", "jpg"); ("image/png", "png"); ("image/bmp", "bmp")] →
  ((MAX_DOWNLOAD_BYTES < stream_size (body_chunks r))%Z →
   predict request w =
     (Ok (error_page "Image too large (>5MB)"),
      world_after w (delete (download_path (clock w) e) (fs w))
        [EvGet (submitted_url request);
         EvWrite (download_path (clock w) e);
         EvRemove (download_path (clock w) e)]) ∧
   fs (predict request w).2 !! download_path (clock w) e = None) ∧
  ((stream_size (body_chunks r) ≤ MAX_DOWNLOAD_BYTES)%Z →
   (predict request w).1 ≠ Ok (error_page "Image too large (>5MB)") ∧
   fs (predict request w).2 !! download_path (clock w) e
     = Some (concat (body_chunks r))).
Proof.
  intros Hno Hurl Hscheme Hget Hstatus Hmime%mime_lookup_Some.
  assert (predict request w = predict_url (submitted_url request) w) as ->.
  { rewrite predict_without_upload by done.
    by rewrite bool_decide_eq_false_2 by done. }
  rewrite (predict_url_opened _ r e w) by done.
  set (p := download_path (clock w) e).
  match goal with
  | |- context [try_except_RequestException ?m ?h ?w1] =>
      remember (try_except_RequestException m h w1) as out eqn:Hout
  end.
  unfold try_except_RequestException, bind at 1 in Hout.
  split.
  - intros Hbig.
    rewrite save_stream_too_large in Hout by (unfold MAX_DOWNLOAD_BYTES in *; lia).
    unfold world_after, ret in Hout. cbn [fs trace engine clock snd] in Hout.
    rewrite delete_insert_eq, <- app_assoc in Hout. subst out.
    split; [done|]. apply lookup_delete_eq.
  - intros Hsmall. rewrite save_stream_within in Hout by lia.
    unfold world_after in Hout. cbn [fs trace engine clock] in Hout.
    rewrite alter_insert_eq, app_nil_l in Hout.
    destruct (body_error r) as [msg|].
    + unfold ret in Hout. subst out. cbn [fst snd fs]. split.
      * discriminate.
      * apply lookup_insert_eq.
    + unfold bind at 1 in Hout.
      pose proof (run_yolo_keeps_image p DEFAULT_CONF DEFAULT_IOU
          {| fs := <[p:=concat (body_chunks r)]> (fs w);
             trace := (trace w ++ [EvGet (submitted_url request); EvWrite p]) ++ [];
             engine := engine w; clock := clock w |}) as Hkept.
      cbn [fs] in Hkept. rewrite lookup_insert_eq in Hkept.
      destruct (run_yolo p DEFAULT_CONF DEFAULT_IOU _) as [o w2].
      cbn [snd] in Hkept.
      by destruct o as [res|[]]; subst out; cbn [fst snd].
Qed.

End PredictClaims.

(** ** The handler on concrete requests *)

Section Runs.

Example run_yolo_demo :
  (@run_yolo Demo.ext Demo.image DEFAULT_CONF DEFAULT_IOU Demo.world_with_image).1
  = Ok ([Demo.detection], mkPath "/app/static/uploads" "cat_1700000000_annotated.jpg").
Proof. vm_compute. reflexivity. Qed.

Example round_demo :
  confidence Demo.detection = 0.8765%float ∧
  box_xyxy_rounded Demo.detection = [10.3%float; 20%float; 110.8%float; 220.6%float].
Proof. vm_compute. done. Qed.

Example predict_pdf :
  @predict Demo.ext (Demo.upload "doc.pdf") Demo.world
  = (Ok (error_page "Unsupported file type"), Demo.world).
Proof. reflexivity. Qed.

Example predict_upload_trace :
  trace (@predict Demo.ext (Demo.upload "cat.JPG") Demo.world).2
  = [EvWrite (mkPath "/app/static/uploads" "cat_1700000000.JPG");
     EvWrite (mkPath "/app/static/uploads" "cat_1700000000_annotated.JPG")].
Proof. vm_compute. reflexivity. Qed.

Example predict_ftp :
  @predict Demo.ext (Demo.paste "ftp://example.com/a.jpg") Demo.world
  = (Ok (error_page "Only http/https URLs are allowed"), Demo.world).
Proof. reflexivity. Qed.

Example predict_html :
  (@predict Demo.ext (Demo.paste "http://example.com/page") Demo.world).1
  = Ok (error_page "URL is not an image (got text/html)").
Proof. vm_compute. reflexivity. Qed.

Example predict_url_trace :
  trace (@predict Demo.ext (Demo.paste "  https://example.com/cat.jpg ") Demo.world).2
  = [EvGet "https://example.com/cat.jpg";
     EvWrite (mkPath "/app/static/uploads" "url_1700000000.jpg");
     EvWrite (mkPath "/app/static/uploads" "url_1700000000_annotated.jpg")].
Proof. vm_compute. reflexivity. Qed.

Example predict_unreachable :
  (@predict Demo.ext (Demo.paste "http://nowhere.invalid/x") Demo.world).1
  = Ok (error_page "Failed to fetch URL: connection refused").
Proof. vm_compute. reflexivity. Qed.

Example predict_blank :
  (@predict Demo.ext (Demo.paste "   ") Demo.world).1
  = Ok (error_page "Please upload a file or provide an image URL").
Proof. vm_compute. reflexivity. Qed.

Example media_type_padded :
  media_type (mkResponse None (Some ("Image/PNG" +:+ Py.code [0xC2; 0xA0]%N +:+ "; q=1")) [] None)
  = "image/png".
Proof. reflexivity. Qed.

Example stream_sizes :
  stream_size Demo.big_body = (MAX_DOWNLOAD_BYTES + 8192)%Z ∧
  stream_size Demo.full_body = MAX_DOWNLOAD_BYTES.
Proof. vm_compute. done. Qed.

End Runs.

(** ** The claims on concrete inputs *)

Section Witnesses.

Lemma demo_run :
  @run_yolo Demo.ext Demo.image DEFAULT_CONF DEFAULT_IOU Demo.world_with_image
  = (Ok ([Demo.detection], annotated_beside Demo.image),
     @after_run_yolo Demo.ext Demo.world_with_image Demo.image DEFAULT_CONF DEFAULT_IOU
       ["066"%byte]).
Proof. reflexivity. Qed.

(** C1, as stated, fails.  With the table [["cat"]] loaded and built-in
    names [{0: "person", 1: "dog"}], a box of class 1 is out of the range
    of the table: the chain of the claim falls back to the built-in name
    "dog", the code renders "1". *)
Lemma class_name_chain_counterexample :
  @CUSTOM_NAMES Demo.ext = Some ["cat"] ∧
  names (@engine_result Demo.ext Demo.world_with_image Demo.image DEFAULT_CONF DEFAULT_IOU)
    = NamesDict {[ 0 := "person"; 1 := "dog" ]} ∧
  box_list (@engine_result Demo.ext Demo.world_with_image Demo.image DEFAULT_CONF DEFAULT_IOU)
    = [Demo.box] ∧
  (@run_yolo Demo.ext Demo.image DEFAULT_CONF DEFAULT_IOU Demo.world_with_image).1
    = Ok ([Demo.detection], annotated_beside Demo.image) ∧
  class_name Demo.detection = "1" ∧
  chain_class_name (@CUSTOM_NAMES Demo.ext)
    (names (@engine_result Demo.ext Demo.world_with_image Demo.image DEFAULT_CONF DEFAULT_IOU))
    (box_cls Demo.box) = "dog" ∧
  ¬ (∀ (ext : Externals) (p : Path) (conf iou : float) (w w' : World)
       (dets : list Detection) (ap : Path),
       run_yolo p conf iou w = (Ok (dets, ap), w') →
       Forall2
         (λ b d, class_name d =
                 chain_class_name CUSTOM_NAMES (names (engine_result w p conf iou)) (box_cls b))
         (box_list (engine_result w p conf iou)) dets).
Proof.
  do 6 (split; [vm_compute; reflexivity|]).
  intros Hchain.
  pose proof (Hchain Demo.ext _ _ _ _ _ _ _ demo_run) as Hall.
  vm_compute in Hall. inversion Hall as [|b d bs ds Hname _]; subst.
  discriminate Hname.
Qed.

Lemma class_name_single_table_witness :
  ∃ dets,
    @run_yolo Demo.ext Demo.image DEFAULT_CONF DEFAULT_IOU Demo.world_with_image
    = (Ok (dets, annotated_beside Demo.image),
       @after_run_yolo Demo.ext Demo.world_with_image Demo.image DEFAULT_CONF DEFAULT_IOU
         ["066"%byte]) ∧
    Forall2
      (λ b d, class_name d =
              single_table_class_name (@CUSTOM_NAMES Demo.ext)
                (names (@engine_result Demo.ext Demo.world_with_image Demo.image
                          DEFAULT_CONF DEFAULT_IOU)) (box_cls b))
      (box_list (@engine_result Demo.ext Demo.world_with_image Demo.image
                   DEFAULT_CONF DEFAULT_IOU)) dets.
Proof.
  apply (@class_name_single_table Demo.ext Demo.image DEFAULT_CONF DEFAULT_IOU
           Demo.world_with_image).
  - vm_compute. reflexivity.
  - repeat constructor. vm_compute. discriminate.
Defined.

Lemma detections_rounded_witness :
  Forall2
    (λ b d, let '(x1, y1, x2, y2) := box_xyxy b in
            confidence d = @round Demo.ext (box_conf b) 4 ∧
            box_xyxy_rounded d =
              [@round Demo.ext x1 1; @round Demo.ext y1 1;
               @round Demo.ext x2 1; @round Demo.ext y2 1])
    (box_list (@engine_result Demo.ext Demo.world_with_image Demo.image
                 DEFAULT_CONF DEFAULT_IOU)) [Demo.detection].
Proof.
  apply (@detections_rounded Demo.ext Demo.image DEFAULT_CONF DEFAULT_IOU
           Demo.world_with_image
           (@after_run_yolo Demo.ext Demo.world_with_image Demo.image DEFAULT_CONF DEFAULT_IOU
              ["066"%byte])
           [Demo.detection] (annotated_beside Demo.image)).
  reflexivity.
Defined.



Lemma detection_idempotent_witness :
  (@run_yolo Demo.ext Demo.image DEFAULT_CONF DEFAULT_IOU
     (@run_yolo Demo.ext Demo.image DEFAULT_CONF DEFAULT_IOU Demo.world_with_image).2).1
  = (@run_yolo Demo.ext Demo.image DEFAULT_CONF DEFAULT_IOU Demo.world_with_image).1.
Proof.
  apply (@detection_idempotent Demo.ext Demo.image DEFAULT_CONF DEFAULT_IOU
           Demo.world_with_image).
  intros s1 s2 p img conf iou. reflexivity.
Defined.

Lemma unsupported_file_type_witness :
  @predict Demo.ext (Demo.upload "doc.pdf") Demo.world
    = (Ok (error_page "Unsupported file type"), Demo.world) ∧
  (@predict Demo.ext (Demo.upload "cat.JPG") Demo.world).1
    ≠ Ok (error_page "Unsupported file type") ∧
  fs (@predict Demo.ext (Demo.upload "cat.JPG") Demo.world).2
    !! @upload_path_of Demo.ext (clock Demo.world) "cat.JPG" = Some Demo.jpeg_bytes.
Proof.
  split.
  - apply (proj1 (@unsupported_file_type Demo.ext (Demo.upload "doc.pdf")
                    (mkFileStorage "doc.pdf" Demo.jpeg_bytes) Demo.world
                    eq_refl ltac:(discriminate))).
    right. exists "pdf". split.
    + split; [by exists "doc"|]. apply no_extension_iff. reflexivity.
    + rewrite extension_allowed_iff. apply (bool_decide_eq_false_1 _).
      vm_compute. reflexivity.
  - apply (proj2 (@unsupported_file_type Demo.ext (Demo.upload "cat.JPG")
                    (mkFileStorage "cat.JPG" Demo.jpeg_bytes) Demo.world
                    eq_refl ltac:(discriminate))).
    exists "JPG". split.
    + split; [by exists "cat"|]. apply no_extension_iff. reflexivity.
    + exists "jpg". split; [constructor|reflexivity].
Defined.

(** C4, as stated, fails.  The submitted [image_url] starts with a space,
    so with neither ["http://"] nor ["https://"]; the handler strips it
    first, fetches the URL, and reports the content type of the answer. *)
Lemma url_scheme_counterexample :
  Py.startswith "http://" " http://example.com/page" = false ∧
  Py.startswith "https://" " http://example.com/page" = false ∧
  (@predict Demo.ext (Demo.paste " http://example.com/page") Demo.world).1
    = Ok (error_page "URL is not an image (got text/html)") ∧
  net_requests
    (trace (@predict Demo.ext (Demo.paste " http://example.com/page") Demo.world).2)
    = ["http://example.com/page"].
Proof. repeat split; vm_compute; reflexivity. Qed.

Lemma url_scheme_rejected_witness :
  @predict Demo.ext (Demo.paste "ftp://example.com/a.jpg") Demo.world
  = (Ok (error_page "Only http/https URLs are allowed"), Demo.world) ∧
  net_requests (trace (@predict Demo.ext (Demo.paste "ftp://example.com/a.jpg") Demo.world).2)
  = net_requests (trace Demo.world).
Proof.
  apply (@url_scheme_rejected Demo.ext (Demo.paste "ftp://example.com/a.jpg") Demo.world).
  - intros f. discriminate.
  - vm_compute. discriminate.
  - rewrite <- startswith_iff. vm_compute. discriminate.
  - rewrite <- startswith_iff. vm_compute. discriminate.
Defined.


Lemma upload_takes_precedence_witness :
  @predict Demo.ext Demo.both Demo.world
  = @predict_upload Demo.ext (mkFileStorage "cat.JPG" Demo.jpeg_bytes) Demo.world ∧
  (∀ url, @predict Demo.ext (mkRequest (Some (mkFileStorage "cat.JPG" Demo.jpeg_bytes)) url)
            Demo.world
          = @predict Demo.ext Demo.both Demo.world) ∧
  net_requests (trace (@predict Demo.ext Demo.both Demo.world).2)
  = net_requests (trace Demo.world).
Proof.
  apply (@upload_takes_precedence Demo.ext Demo.both
           (mkFileStorage "cat.JPG" Demo.jpeg_bytes) Demo.world).
  - reflexivity.
  - discriminate.
Defined.


Lemma download_size_cap_witness :
  (@predict Demo.ext_streaming (Demo.paste "http://example.com/big.png") Demo.world_streaming
   = (Ok (error_page "Image too large (>5MB)"),
      world_after Demo.world_streaming
        (delete (@download_path Demo.ext_streaming (clock Demo.world_streaming) "png")
           (fs Demo.world_streaming))
        [EvGet (submitted_url (Demo.paste "http://example.com/big.png"));
         EvWrite (@download_path Demo.ext_streaming (clock Demo.world_streaming) "png");
         EvRemove (@download_path Demo.ext_streaming (clock Demo.world_streaming) "png")]) ∧
   fs (@predict Demo.ext_streaming (Demo.paste "http://example.com/big.png")
         Demo.world_streaming).2
     !! @download_path Demo.ext_streaming (clock Demo.world_streaming) "png" = None) ∧
  ((@predict Demo.ext_streaming (Demo.paste "http://example.com/full.png")
      Demo.world_streaming).1
   ≠ Ok (error_page "Image too large (>5MB)") ∧
   fs (@predict Demo.ext_streaming (Demo.paste "http://example.com/full.png")
         Demo.world_streaming).2
     !! @download_path Demo.ext_streaming (clock Demo.world_streaming) "png"
   = Some (concat Demo.full_body)).
Proof.
  split.
  - apply (proj1 (@download_size_cap Demo.ext_streaming
                    (Demo.paste "http://example.com/big.png")
                    (mkResponse None (Some "image/png") Demo.big_body None) "png"
                    Demo.world_streaming
                    ltac:(intros f; discriminate)
                    ltac:(vm_compute; discriminate)
                    (or_introl (ex_intro _ "example.com/big.png" eq_refl))
                    eq_refl eq_refl
                    ltac:(apply mime_lookup_Some; reflexivity))).
    vm_compute. reflexivity.
  - apply (proj2 (@download_size_cap Demo.ext_streaming
                    (Demo.paste "http://example.com/full.png")
                    (mkResponse None (Some "image/png") Demo.full_body None) "png"
                    Demo.world_streaming
                    ltac:(intros f; discriminate)
                    ltac:(vm_compute; discriminate)
                    (or_introl (ex_intro _ "example.com/full.png" eq_refl))
                    eq_refl eq_refl
                    ltac:(apply mime_lookup_Some; reflexivity))).
    vm_compute. discriminate.
Defined.

End Witnesses.

(** * Further properties of the code *)

(** ** More on strings *)

Section MoreStrings.

Lemma string_length_ind (P : string → Prop) :
  (∀ s, (∀ t, (String.length t < String.length s)%nat → P t) → P s) → ∀ s, P s.
Proof. intros H. apply (induction_ltof1 _ String.length). exact H. Qed.

(** Every code point of whitespace takes one, two or three bytes. *)
Lemma whitespace_bytes (c : string) :
  c ∈ Py.whitespace →
  (∃ a, c = String a "") ∨ (∃ a b, c = String a (String b "")) ∨
  (∃ a b d, c = String a (String b (String d ""))).
Proof.
  unfold Py.whitespace, Py.code. simpl. intros Hc.
  repeat (apply elem_of_cons in Hc as [->|Hc]); [eauto 6..|].
  by apply elem_of_nil in Hc.
Qed.

Lemma whitespace_longer (c rest : string) :
  c ∈ Py.whitespace → (String.length rest < String.length (c +:+ rest))%nat.
Proof.
  intros Hc. rewrite length_app_str.
  destruct (whitespace_bytes c Hc) as [(a & ->)|[(a & b & ->)|(a & b & d & ->)]];
    simpl; lia.
Qed.

Lemma isspace_true (c : string) : c ∈ Py.whitespace → Py.isspace c = true.
Proof. apply bool_decide_eq_true_2. Qed.

Lemma lstrip_unfold (c1 : ascii) (s1 : string) :
  Py.lstrip (String c1 s1) =
  if Py.isspace (String c1 "") then Py.lstrip s1
  else
    match s1 with
    | EmptyString => String c1 s1
    | String c2 s2 =>
        if Py.isspace (String c1 (String c2 "")) then Py.lstrip s2
        else
          match s2 with
          | EmptyString => String c1 s1
          | String c3 s3 =>
              if Py.isspace (String c1 (String c2 (String c3 ""))) then Py.lstrip s3
              else String c1 s1
          end
    end.
Proof. by destruct s1 as [|c2 [|c3 s3]]. Qed.

(** [lstrip] removes a leading code point of whitespace. *)
Lemma lstrip_ws (c s : string) : c ∈ Py.whitespace → Py.lstrip (c +:+ s) = Py.lstrip s.
Proof.
  unfold Py.whitespace, Py.code. simpl. intros Hc.
  repeat (apply elem_of_cons in Hc as [->|Hc]); [reflexivity..|].
  by apply elem_of_nil in Hc.
Qed.

(** [lstrip] removes a leading code point of whitespace, or stops at a
    string that starts with none. *)
Lemma lstrip_cases (s : string) :
  (∃ c rest, c ∈ Py.whitespace ∧ s = c +:+ rest ∧ Py.lstrip s = Py.lstrip rest) ∨
  (Py.lstrip s = s ∧ ∀ c rest, c ∈ Py.whitespace → s ≠ c +:+ rest).
Proof.
  assert (∀ c rest t, c ∈ Py.whitespace → t = c +:+ rest →
    (∃ a, t = String a rest ∧ Py.isspace (String a "") = true) ∨
    (∃ a b, t = String a (String b rest) ∧ Py.isspace (String a (String b "")) = true) ∨
    (∃ a b d, t = String a (String b (String d rest)) ∧
              Py.isspace (String a (String b (String d ""))) = true)) as Hsplit.
  { intros c rest t Hc ->. pose proof (isspace_true c Hc) as Ht.
    destruct (whitespace_bytes c Hc) as [(a & ->)|[(a & b & ->)|(a & b & d & ->)]];
      eauto 8. }
  destruct s as [|c1 s1].
  { right. split; [done|]. intros c rest Hc Heq.
    destruct (Hsplit c rest _ Hc Heq) as [(a & ? & _)|[(a & b & ? & _)|(a & b & d & ? & _)]];
      discriminate. }
  rewrite lstrip_unfold.
  destruct (Py.isspace (String c1 "")) eqn:H1.
  { left. exists (String c1 ""), s1. by apply bool_decide_eq_true in H1. }
  destruct s1 as [|c2 s2].
  { right. split; [done|]. intros c rest Hc Heq.
    destruct (Hsplit c rest _ Hc Heq) as [(a & ? & ?)|[(a & b & ? & _)|(a & b & d & ? & _)]];
      simplify_eq; congruence. }
  destruct (Py.isspace (String c1 (String c2 ""))) eqn:H2.
  { left. exists (String c1 (String c2 "")), s2. by apply bool_decide_eq_true in H2. }
  destruct s2 as [|c3 s3].
  { right. split; [done|]. intros c rest Hc Heq.
    destruct (Hsplit c rest _ Hc Heq) as [(a & ? & ?)|[(a & b & ? & ?)|(a & b & d & ? & _)]];
      simplify_eq; congruence. }
  destruct (Py.isspace (String c1 (String c2 (String c3 "")))) eqn:H3.
  { left. exists (String c1 (String c2 (String c3 ""))), s3.
    by apply bool_decide_eq_true in H3. }
  right. split; [done|]. intros c rest Hc Heq.
  destruct (Hsplit c rest _ Hc Heq) as [(a & ? & ?)|[(a & b & ? & ?)|(a & b & d & ? & ?)]];
    simplify_eq; congruence.
Qed.

(** [s] is [lstrip s] behind a run of whitespace. *)
Lemma lstrip_prefix (s : string) :
  ∃ pre, s = pre +:+ Py.lstrip s ∧ whitespace_only pre.
Proof.
  induction s as [s IH] using string_length_ind.
  destruct (lstrip_cases s) as [(c & rest & Hc & -> & ->)|[-> _]].
  - destruct (IH rest) as (pre & Hrest & Hpre); [by apply whitespace_longer|].
    exists (c +:+ pre). split; [|by constructor].
    by rewrite app_assoc_str, <- Hrest.
  - exists "". split; [done|constructor].
Qed.

(** What [lstrip] leaves starts with no whitespace. *)
Lemma lstrip_no_prefix (s c rest : string) :
  c ∈ Py.whitespace → Py.lstrip s ≠ c +:+ rest.
Proof.
  revert c rest. induction s as [s IH] using string_length_ind. intros c rest Hc.
  destruct (lstrip_cases s) as [(c' & rest' & Hc' & -> & ->)|[-> Hno]].
  - apply IH; [by apply whitespace_longer|done].
  - by apply Hno.
Qed.

Lemma lstrip_idemp (s : string) : Py.lstrip (Py.lstrip s) = Py.lstrip s.
Proof.
  destruct (lstrip_cases (Py.lstrip s)) as [(c & rest & Hc & Heq & _)|[Hid _]]; [|done].
  by destruct (lstrip_no_prefix s c rest Hc).
Qed.

(** [lstrip] leaves nothing exactly of whitespace-only strings. *)
Lemma lstrip_blank (s : string) : Py.lstrip s = "" ↔ whitespace_only s.
Proof.
  split.
  - intros Hs. destruct (lstrip_prefix s) as (pre & Heq & Hpre).
    rewrite Hs, app_empty_r in Heq. by subst.
  - induction 1 as [|c s Hc _ IH]; [done|]. by rewrite lstrip_ws.
Qed.

Lemma rstrip_unfold (c : ascii) (s : string) :
  Py.rstrip (String c s) =
  if bool_decide (Py.lstrip (String c s) = "") then "" else String c (Py.rstrip s).
Proof. reflexivity. Qed.

Lemma rstrip_blank (s : string) : Py.rstrip s = "" ↔ whitespace_only s.
Proof.
  rewrite <- lstrip_blank. destruct s as [|c s]; [done|].
  rewrite rstrip_unfold. case_bool_decide as Hs; [done|]. split; [discriminate|done].
Qed.

(** [s] is [rstrip s] before a run of whitespace. *)
Lemma rstrip_suffix (s : string) :
  ∃ post, s = Py.rstrip s +:+ post ∧ whitespace_only post.
Proof.
  induction s as [|c s (post & Heq & Hpost)].
  - exists "". split; [done|constructor].
  - rewrite rstrip_unfold. case_bool_decide as Hs.
    + exists (String c s). split; [done|by apply lstrip_blank].
    + exists post. split; [|done]. by rewrite app_cons, <- Heq.
Qed.

(** What [rstrip] leaves ends with no whitespace. *)
Lemma rstrip_no_suffix (s c rest : string) :
  c ∈ Py.whitespace → Py.rstrip s ≠ rest +:+ c.
Proof.
  intros Hc. revert rest. induction s as [|a s IH]; intros rest.
  - simpl. intros Heq. apply (f_equal String.length) in Heq.
    pose proof (whitespace_longer c "" Hc) as Hlen.
    rewrite length_app_str in Heq. rewrite length_app_str in Hlen. simpl in *. lia.
  - rewrite rstrip_unfold. case_bool_decide as Hs.
    + intros Heq. apply (f_equal String.length) in Heq.
      pose proof (whitespace_longer c "" Hc) as Hlen.
      rewrite length_app_str in Heq. rewrite length_app_str in Hlen. simpl in *. lia.
    + destruct rest as [|b rest].
      * rewrite app_empty_l. intros Heq. apply Hs, lstrip_blank.
        destruct (rstrip_suffix s) as (post & Hpost & Hws).
        rewrite Hpost, <- app_cons, Heq. by constructor.
      * rewrite app_cons. intros [= _ Heq]. by apply (IH rest).
Qed.

(** What [strip] leaves is empty exactly for whitespace-only strings. *)
Lemma strip_blank (s : string) : Py.strip s = "" ↔ whitespace_only s.
Proof.
  unfold Py.strip. by rewrite rstrip_blank, <- !lstrip_blank, lstrip_idemp.
Qed.

(** What [strip] leaves neither starts nor ends with whitespace. *)
Lemma strip_trimmed (s : string) : trimmed (Py.strip s).
Proof.
  intros c rest Hc. split; [|by apply rstrip_no_suffix].
  unfold Py.strip. intros Heq.
  destruct (rstrip_suffix (Py.lstrip s)) as (post & Hpost & _).
  rewrite Heq, app_assoc_str in Hpost. by apply lstrip_no_prefix in Hpost.
Qed.

(** [strip] takes whitespace off both ends, and nothing else. *)
Lemma strip_between (s : string) :
  ∃ pre post, s = pre +:+ Py.strip s +:+ post ∧ whitespace_only pre ∧ whitespace_only post.
Proof.
  destruct (lstrip_prefix s) as (pre & Hpre & Hwpre).
  destruct (rstrip_suffix (Py.lstrip s)) as (post & Hpost & Hwpost).
  exists pre, post. unfold Py.strip. by rewrite <- Hpost.
Qed.

Lemma lower_char_idemp (c : ascii) : Py.lower_char (Py.lower_char c) = Py.lower_char c.
Proof. by destruct c as [[] [] [] [] [] [] [] []]. Qed.

Lemma lower_idemp (s : string) : Py.lower (Py.lower s) = Py.lower s.
Proof.
  induction s as [|c s IH]; simpl; [done|]. by rewrite lower_char_idemp, IH.
Qed.

Lemma lower_char_dot (c : ascii) : Py.lower_char c = "."%char ↔ c = "."%char.
Proof. destruct c as [[] [] [] [] [] [] [] []]; split; (done || discriminate). Qed.

Lemma contains_dot_lower (s : string) :
  Py.contains "." (Py.lower s) = Py.contains "." s.
Proof.
  induction s as [|c s IH]; simpl; [done|]. rewrite IH.
  destruct (decide (c = "."%char)) as [->|Hne]; [done|].
  rewrite decide_False; [done|]. by rewrite lower_char_dot.
Qed.

Lemma after_last_dot_lower (s : string) :
  Py.after_last "." (Py.lower s) = Py.lower <$> Py.after_last "." s.
Proof.
  induction s as [|c s IH]; simpl; [done|]. rewrite IH.
  destruct (Py.after_last "." s) as [t|]; simpl; [done|].
  destruct (decide (c = "."%char)) as [->|Hne]; [done|].
  rewrite decide_False; [done|]. by rewrite lower_char_dot.
Qed.

Lemma app_inj_r (a b e : string) : a +:+ e = b +:+ e → a = b.
Proof.
  revert b. induction a as [|x a IH]; intros [|y b] Heq.
  - done.
  - apply (f_equal String.length) in Heq.
    rewrite !length_app_str in Heq. simpl in Heq. lia.
  - apply (f_equal String.length) in Heq.
    rewrite !length_app_str in Heq. simpl in Heq. lia.
  - rewrite !app_cons in Heq. injection Heq as -> Heq. f_equal. by apply IH.
Qed.

(** The first piece of [split] is what precedes the first separator. *)
Lemma split_head (sep : ascii) (t rest : string) :
  Py.contains sep t = false →
  head (Py.split sep (t +:+ String sep rest)) = Some t.
Proof.
  induction t as [|c t IH]; simpl.
  - intros _. rewrite ?app_empty_l. simpl. by rewrite decide_True.
  - destruct (decide (c = sep)) as [|Hne]; [done|]. intros Ht.
    specialize (IH Ht).
    destruct (Py.split sep (t +:+ String sep rest)) as [|h tl]; [done|].
    simpl in *. by simplify_eq.
Qed.

Lemma split_head_whole (sep : ascii) (t : string) :
  Py.contains sep t = false → Py.split sep t = [t].
Proof.
  induction t as [|c t IH]; simpl; [done|].
  destruct (decide (c = sep)) as [|Hne]; [done|]. intros Ht.
  by rewrite IH.
Qed.

End MoreStrings.

(** ** Start-up and helpers *)

Section Helpers.

Context `{ext : Externals}.

(** X1: every label loaded from [classes.txt] is non-empty, neither
    starts nor ends with whitespace (Unicode whitespace included), and is
    a line of the file without the whitespace around it: blank lines are
    dropped, the others are stripped. *)
Theorem custom_names_clean (lines l : list string) :
  classes_txt = Some lines →
  CUSTOM_NAMES = Some l →
  Forall
    (λ s, s ≠ "" ∧ trimmed s ∧
          ∃ pre post, pre +:+ s +:+ post ∈ lines ∧
                      whitespace_only pre ∧ whitespace_only post) l.
Proof.
  unfold CUSTOM_NAMES. intros ->.
  intros [= <-]. apply Forall_forall. intros s.
  rewrite list_elem_of_filter, list_elem_of_fmap.
  intros [Hne (raw & -> & Hraw)]. split; [done|]. split; [apply strip_trimmed|].
  destruct (strip_between raw) as (pre & post & Heq & Hpre & Hpost).
  exists pre, post. by rewrite <- Heq.
Qed.

Lemma blank_lines_filtered (lines : list string) :
  Forall whitespace_only lines →
  filter (λ s : string, s ≠ "") (Py.strip <$> lines) = [].
Proof.
  induction 1 as [|s lines Hs _ IH]; [done|].
  rewrite fmap_cons, filter_cons_False; [done|].
  intros Hne. apply Hne. by apply strip_blank.
Qed.

(** X2: a [classes.txt] that holds only blank lines counts as no table at
    all: the names of the engine are used. *)
Theorem blank_classes_file_ignored (lines : list string) (res : Results) :
  classes_txt = Some lines →
  Forall whitespace_only lines →
  select_names res = names res.
Proof.
  intros Hfile Hblank. unfold select_names, CUSTOM_NAMES.
  by rewrite Hfile, blank_lines_filtered.
Qed.

(** X3: two requests served at different seconds get different unique
    names for the same base name and extension. *)
Theorem unique_name_distinct (base ex : string) (w1 w2 : World) :
  clock w1 ≠ clock w2 →
  (unique_name base ex w1).1 ≠ (unique_name base ex w2).1.
Proof.
  intros Hclock [= Heq]. apply Hclock.
  apply (inj (String.app base)) in Heq.
  change ("_" +:+ ?x) with (String "_" x) in Heq.
  injection Heq as Heq. apply app_inj_r in Heq.
  by apply (inj pretty) in Heq.
Qed.

Lemma allowed_after_last (f : string) :
  allowed f =
  match Py.after_last "." f with
  | Some e => bool_decide (Py.lower e ∈ ALLOWED_EXTS)
  | None => false
  end.
Proof.
  unfold allowed. destruct (Py.contains "." f) eqn:Hc.
  - apply last_cut_exists in Hc as (a & e & -> & He).
    by rewrite rsplit1_cut, after_last_app.
  - apply after_last_None in Hc. by rewrite Hc.
Qed.

(** X4: the extension check ignores letter case in the whole file name. *)
Theorem allowed_ignores_case (f : string) : allowed (Py.lower f) = allowed f.
Proof.
  rewrite !allowed_after_last, after_last_dot_lower.
  destruct (Py.after_last "." f) as [e|]; simpl; [|done].
  by rewrite lower_idemp.
Qed.

(** X5: the extension check looks at what follows the last dot only:
    whatever precedes that dot, earlier extensions included, does not
    count. *)
Theorem allowed_last_extension_only (a e : string) :
  Py.contains "." e = false →
  allowed (a +:+ "." +:+ e) = bool_decide (Py.lower e ∈ ALLOWED_EXTS).
Proof.
  intros He. rewrite allowed_after_last.
  change ("." +:+ e) with (String "." e). by rewrite after_last_app.
Qed.

(** X7: chunks without data do not count: the download loop does to a
    stream what it does to the stream without its empty chunks. *)
Theorem empty_chunks_skipped (p : Path) (chunks : list (list byte))
    (err : option string) (total : Z) (w : World) :
  save_stream p (data_chunks chunks) err total w = save_stream p chunks err total w.
Proof.
  unfold data_chunks. revert total w.
  induction chunks as [|chunk rest IH]; intros total w; [done|].
  destruct chunk as [|b chunk].
  - rewrite filter_cons_False by (simpl; lia). simpl. apply IH.
  - rewrite filter_cons_True by done.
    cbn [save_stream].
    destruct (MAX_DOWNLOAD_BYTES <? _)%Z; [done|].
    unfold bind, append_file, set_fs. apply IH.
Qed.

End Helpers.

(** ** More on the route [/predict] *)

Section PredictMore.

Context `{ext : Externals}.

(** A GET that fails, or answers with an error status, ends the URL path
    in the handler of [RequestException]. *)
Lemma predict_url_failed (url msg : string) (w : World) :
  starts_with "http://" url ∨ starts_with "https://" url →
  requests_get url = inl msg ∨
    (∃ r, requests_get url = inr r ∧ status_error r = Some msg) →
  predict_url url w =
  (Ok (error_page ("Failed to fetch URL: " +:+ msg)), world_after w (fs w) [EvGet url]).
Proof.
  intros Hscheme Hfail. unfold predict_url.
  assert (Py.startswith "http://" url || Py.startswith "https://" url = true) as ->.
  { apply orb_true_iff. by rewrite !startswith_iff. }
  cbn [negb].
  unfold try_except_RequestException, http_get, raise_for_status.
  unfold bind at 1 2 3. unfold log.
  destruct Hfail as [Hget|(r & Hget & Hstatus)]; rewrite Hget.
  - reflexivity.
  - unfold ret at 1. cbv beta iota. rewrite Hstatus. reflexivity.
Qed.

(** OpenCV can write the annotated image of every download: it is stored
    under [url_{t}.{ext}] with [ext] one of [jpg], [png], [bmp]. *)
Lemma download_encodable (w : World) (t : Z) (e : string) (conf iou : float) :
  e ∈ ["jpg"; "png"; "bmp"] →
  is_Some (annotated_data w (download_path t e) conf iou).
Proof.
  intros He. unfold annotated_data, annotated_beside, download_path, path_join.
  cbn [parent].
  destruct (stem_suffix_cut UPLOAD_DIR ("url_" +:+ Py.str t) e) as [Hstem Hsuffix].
  { set_unfold. by destruct He as [->|[->|[->|[]]]]. }
  { done. }
  { set_unfold. by destruct He as [->|[->|[->|[]]]]. }
  change ("." +:+ e) with (String "." e).
  rewrite !app_assoc_str in Hstem, Hsuffix. rewrite Hstem, Hsuffix.
  change (String "." e) with ("." +:+ e).
  rewrite <- (app_assoc_str _ "_annotated" ("." +:+ e)).
  by apply imwrite_known.
Qed.

(** The download loop on a stream within the cap, started on the freshly
    created file. *)
Lemma download_stored (p : Path) (chunks : list (list byte)) (err : option string)
    (evs : list Event) (w : World) :
  (stream_size chunks ≤ MAX_DOWNLOAD_BYTES)%Z →
  save_stream p chunks err 0 (world_after w (<[p := []]> (fs w)) evs) =
  (match err with
   | Some msg => Raise (RequestException msg)
   | None => Ok false
   end,
   world_after w (<[p := concat chunks]> (fs w)) evs).
Proof.
  intros Hsmall. rewrite save_stream_within by lia.
  unfold world_after. cbn [fs trace engine clock].
  by rewrite alter_insert_eq, app_nil_l, app_nil_r.
Qed.

(** X8: a fetch that fails (no connection, time-out) or answers with an
    error status is reported as "Failed to fetch URL: {message}"; one GET
    was made and the file system is untouched. *)
Theorem fetch_failure_reported (request : Request) (msg : string) (w : World) :
  no_upload request → submitted_url request ≠ "" →
  starts_with "http://" (submitted_url request) ∨
    starts_with "https://" (submitted_url request) →
  requests_get (submitted_url request) = inl msg ∨
    (∃ r, requests_get (submitted_url request) = inr r ∧ status_error r = Some msg) →
  predict request w =
  (Ok (error_page ("Failed to fetch URL: " +:+ msg)),
   world_after w (fs w) [EvGet (submitted_url request)]).
Proof.
  intros Hno Hurl Hscheme Hfail.
  rewrite predict_without_upload by done.
  rewrite bool_decide_eq_false_2 by done.
  by apply predict_url_failed.
Qed.

(** X9: when the stream breaks before the cap is reached, the answer is
    "Failed to fetch URL: {message}" and the partial file is NOT removed:
    it stays in the upload directory with the bytes received so far. *)
Theorem broken_stream_leaves_partial_file (request : Request) (r : Response)
    (e msg : string) (w : World) :
  no_upload request → submitted_url request ≠ "" →
  starts_with "http://" (submitted_url request) ∨
    starts_with "https://" (submitted_url request) →
  requests_get (submitted_url request) = inr r → status_error r = None →
  (media_type r, e) ∈ [("image/jpeg", "jpg"); ("image/png", "png"); ("image/bmp", "bmp")] →
  (stream_size (body_chunks r) ≤ MAX_DOWNLOAD_BYTES)%Z →
  body_error r = Some msg →
  predict request w =
  (Ok (error_page ("Failed to fetch URL: " +:+ msg)),
   world_after w
     (<[download_path (clock w) e := concat (body_chunks r)]> (fs w))
     [EvGet (submitted_url request); EvWrite (download_path (clock w) e)]).
Proof.
  intros Hno Hurl Hscheme Hget Hstatus Hmime%mime_lookup_Some Hsmall Herr.
  rewrite predict_without_upload by done.
  rewrite bool_decide_eq_false_2 by done.
  rewrite (predict_url_opened _ r e w) by done.
  unfold try_except_RequestException, bind at 1.
  rewrite download_stored by done. by rewrite Herr.
Qed.

(** X10: a request without usable file part whose [image_url] field is
    missing, empty or whitespace only (Unicode whitespace included) is
    answered with
    "Please upload a file or provide an image URL"; nothing is fetched or
    written. *)
Theorem no_input_rejected (request : Request) (w : World) :
  no_upload request →
  whitespace_only (default "" (form_image_url request)) →
  predict request w =
  (Ok (error_page "Please upload a file or provide an image URL"), w).
Proof.
  intros Hno Hblank%strip_blank.
  rewrite predict_without_upload by done.
  by rewrite bool_decide_eq_true_2.
Qed.

(** X11: an upload with an allowed extension, on well-formed engine
    output and stored under a name for whose annotated image OpenCV has a
    writer, is answered with one detection per box and the URL of the
    annotated image; exactly two files were written, the upload under its
    unique name and, beside it, the annotated image, which is another
    file. *)
Theorem upload_success (request : Request) (f : FileStorage) (w : World)
    (data : list byte) :
  files_image request = Some f →
  (∃ e, extension (filename f) e ∧ extension_allowed e) →
  annotated_data
    (world_after w
       (<[upload_path_of (clock w) (filename f) := file_content f]> (fs w))
       [EvWrite (upload_path_of (clock w) (filename f))])
    (upload_path_of (clock w) (filename f)) DEFAULT_CONF DEFAULT_IOU = Some data →
  names_well_formed
    (names (engine_result
              (world_after w
                 (<[upload_path_of (clock w) (filename f) := file_content f]> (fs w))
                 [EvWrite (upload_path_of (clock w) (filename f))])
              (upload_path_of (clock w) (filename f)) DEFAULT_CONF DEFAULT_IOU)) →
  Forall (λ b, 0 ≤ box_cls b)%Z
    (box_list (engine_result
                 (world_after w
                    (<[upload_path_of (clock w) (filename f) := file_content f]> (fs w))
                    [EvWrite (upload_path_of (clock w) (filename f))])
                 (upload_path_of (clock w) (filename f)) DEFAULT_CONF DEFAULT_IOU)) →
  ∃ dets,
    (predict request w).1
      = Ok (result_page dets (annotated_beside (upload_path_of (clock w) (filename f)))) ∧
    length dets
      = length (box_list (engine_result
                  (world_after w
                     (<[upload_path_of (clock w) (filename f) := file_content f]> (fs w))
                     [EvWrite (upload_path_of (clock w) (filename f))])
                  (upload_path_of (clock w) (filename f)) DEFAULT_CONF DEFAULT_IOU)) ∧
    file_writes (trace (predict request w).2)
      = (file_writes (trace w) ++
         [upload_path_of (clock w) (filename f);
          annotated_beside (upload_path_of (clock w) (filename f))])%list ∧
    fs (predict request w).2 !! upload_path_of (clock w) (filename f)
      = Some (file_content f) ∧
    fs (predict request w).2 !! annotated_beside (upload_path_of (clock w) (filename f))
      = Some data ∧
    annotated_beside (upload_path_of (clock w) (filename f))
      ≠ upload_path_of (clock w) (filename f).
Proof.
  intros Hf Hext Hdata Hwf Hpos.
  assert (filename f ≠ "") as Hname.
  { destruct Hext as (e & [[a Ha] _] & _). rewrite Ha. by destruct a. }
  apply allowed_true_iff in Hext.
  rewrite (predict_with_upload request f w), predict_upload_accepted by done.
  set (p := upload_path_of (clock w) (filename f)) in *.
  destruct (run_yolo_returns p DEFAULT_CONF DEFAULT_IOU _ Hwf Hpos)
    as (dets & Hdets & Hrun).
  rewrite Hdata in Hrun.
  rewrite Hrun. exists dets. cbn [fst snd].
  split; [done|]. split.
  { apply collect_dets_Forall2 in Hdets. symmetry. by eapply Forall2_length. }
  split.
  { cbn [after_run_yolo world_after trace]. unfold file_writes.
    rewrite !omap_app. simpl. by rewrite <- app_assoc. }
  split.
  { cbn [after_run_yolo world_after fs].
    rewrite lookup_insert_ne by apply annotated_beside_ne. apply lookup_insert_eq. }
  split; [|apply annotated_beside_ne].
  cbn [after_run_yolo fs]. by rewrite lookup_insert_eq.
Qed.


(** X12: a download of an allowed media type that ends cleanly within
    the cap, on well-formed engine output, is answered with one detection
    per box and the URL of the annotated image; the download holds the
    bytes of the stream in order, empty chunks apart, and the events of
    the request are one GET and two file writes. *)
Theorem download_success (request : Request) (r : Response) (e : string) (w : World) :
  no_upload request → submitted_url request ≠ "" →
  starts_with "http://" (submitted_url request) ∨
    starts_with "https://" (submitted_url request) →
  requests_get (submitted_url request) = inr r → status_error r = None →
  (media_type r, e) ∈ [("image/jpeg", "jpg"); ("image/png", "png"); ("image/bmp", "bmp")] →
  (stream_size (body_chunks r) ≤ MAX_DOWNLOAD_BYTES)%Z →
  body_error r = None →
  names_well_formed
    (names (engine_result
              (world_after w
                 (<[download_path (clock w) e := concat (body_chunks r)]> (fs w))
                 [EvGet (submitted_url request); EvWrite (download_path (clock w) e)])
              (download_path (clock w) e) DEFAULT_CONF DEFAULT_IOU)) →
  Forall (λ b, 0 ≤ box_cls b)%Z
    (box_list (engine_result
                 (world_after w
                    (<[download_path (clock w) e := concat (body_chunks r)]> (fs w))
                    [EvGet (submitted_url request); EvWrite (download_path (clock w) e)])
                 (download_path (clock w) e) DEFAULT_CONF DEFAULT_IOU)) →
  ∃ dets,
    (predict request w).1
      = Ok (result_page dets (annotated_beside (download_path (clock w) e))) ∧
    length dets
      = length (box_list (engine_result
                  (world_after w
                     (<[download_path (clock w) e := concat (body_chunks r)]> (fs w))
                     [EvGet (submitted_url request); EvWrite (download_path (clock w) e)])
                  (download_path (clock w) e) DEFAULT_CONF DEFAULT_IOU)) ∧
    trace (predict request w).2
      = (trace w ++
         [EvGet (submitted_url request);
          EvWrite (download_path (clock w) e);
          EvWrite (annotated_beside (download_path (clock w) e))])%list ∧
    fs (predict request w).2 !! download_path (clock w) e
      = Some (concat (body_chunks r)).
Proof.
  intros Hno Hurl Hscheme Hget Hstatus Hmime Hsmall Herr Hwf Hpos.
  destruct (download_encodable
              (world_after w
                 (<[download_path (clock w) e := concat (body_chunks r)]> (fs w))
                 [EvGet (submitted_url request); EvWrite (download_path (clock w) e)])
              (clock w) e DEFAULT_CONF DEFAULT_IOU) as [data Hdata].
  { pose proof Hmime as He.
    repeat (apply elem_of_cons in He as [[= _ ->]|He]);
      [repeat constructor..|by apply elem_of_nil in He]. }
  apply mime_lookup_Some in Hmime.
  set (p := download_path (clock w) e) in *.
  destruct (run_yolo_returns p DEFAULT_CONF DEFAULT_IOU _ Hwf Hpos)
    as (dets & Hdets & Hrun).
  rewrite Hdata in Hrun.
  assert (predict request w =
          (Ok (result_page dets (annotated_beside p)),
           after_run_yolo
             (world_after w (<[p := concat (body_chunks r)]> (fs w))
                [EvGet (submitted_url request); EvWrite p])
             p DEFAULT_CONF DEFAULT_IOU data)) as ->.
  { rewrite predict_without_upload by done.
    rewrite bool_decide_eq_false_2 by done.
    rewrite (predict_url_opened _ r e w) by done. fold p.
    unfold try_except_RequestException, bind at 1.
    rewrite download_stored by done. rewrite Herr.
    unfold bind at 1. by rewrite Hrun. }
  exists dets. cbn [fst snd].
  split; [done|]. split.
  { apply collect_dets_Forall2 in Hdets. symmetry. by eapply Forall2_length. }
  split.
  { unfold after_run_yolo, world_after. cbn [trace]. by rewrite <- app_assoc. }
  unfold after_run_yolo, world_after. cbn [fs].
  rewrite lookup_insert_ne by apply annotated_beside_ne. apply lookup_insert_eq.
Qed.

(** X13: the content-type check reads the media type only: the
    parameters of the header, from its first ";" on, make no difference to
    the type that is looked up and reported. *)
Theorem media_type_normalised (st : option string) (t params : string)
    (body : list (list byte)) (err : option string) :
  Py.contains ";" t = false →
  media_type (mkResponse st (Some (t +:+ ";" +:+ params)) body err)
    = media_type (mkResponse st (Some t) body err).
Proof.
  intros Ht. unfold media_type. cbn [content_type default from_option id].
  change (";" +:+ params) with (String ";" params).
  by rewrite split_head, split_head_whole.
Qed.

(** X14: a response without [Content-Type] header is no image: the answer
    is "URL is not an image (got )", with an empty type, and nothing is
    written. *)
Theorem missing_content_type_rejected (request : Request) (r : Response) (w : World) :
  no_upload request → submitted_url request ≠ "" →
  starts_with "http://" (submitted_url request) ∨
    starts_with "https://" (submitted_url request) →
  requests_get (submitted_url request) = inr r → status_error r = None →
  content_type r = None →
  predict request w =
  (Ok (error_page "URL is not an image (got )"),
   world_after w (fs w) [EvGet (submitted_url request)]).
Proof.
  intros Hno Hurl Hscheme Hget Hstatus Hnone.
  rewrite predict_without_upload by done.
  rewrite bool_decide_eq_false_2 by done.
  rewrite (predict_url_fetched _ r w) by done.
  unfold media_type. rewrite Hnone. reflexivity.
Qed.

(** X15: an exception of the detection step is not caught by the handler
    of the URL path, which catches the [requests] family only: when a
    class name cannot be resolved, the index or key error leaves the
    route; the download stays on disk and no annotated image is
    written. *)
Theorem inference_error_not_caught (request : Request) (r : Response) (e : string)
    (ex : PyExn) (w : World) :
  no_upload request → submitted_url request ≠ "" →
  starts_with "http://" (submitted_url request) ∨
    starts_with "https://" (submitted_url request) →
  requests_get (submitted_url request) = inr r → status_error r = None →
  (media_type r, e) ∈ [("image/jpeg", "jpg"); ("image/png", "png"); ("image/bmp", "bmp")] →
  (stream_size (body_chunks r) ≤ MAX_DOWNLOAD_BYTES)%Z →
  body_error r = None →
  collect_dets
    (select_names (engine_result
       (world_after w
          (<[download_path (clock w) e := concat (body_chunks r)]> (fs w))
          [EvGet (submitted_url request); EvWrite (download_path (clock w) e)])
       (download_path (clock w) e) DEFAULT_CONF DEFAULT_IOU))
    (box_list (engine_result
       (world_after w
          (<[download_path (clock w) e := concat (body_chunks r)]> (fs w))
          [EvGet (submitted_url request); EvWrite (download_path (clock w) e)])
       (download_path (clock w) e) DEFAULT_CONF DEFAULT_IOU)) = Raise ex →
  predict request w =
  (Raise ex,
   after_engine
     (world_after w
        (<[download_path (clock w) e := concat (body_chunks r)]> (fs w))
        [EvGet (submitted_url request); EvWrite (download_path (clock w) e)])
     (download_path (clock w) e) DEFAULT_CONF DEFAULT_IOU).
Proof.
  intros Hno Hurl Hscheme Hget Hstatus Hmime%mime_lookup_Some Hsmall Herr Hraise.
  rewrite predict_without_upload by done.
  rewrite bool_decide_eq_false_2 by done.
  rewrite (predict_url_opened _ r e w) by done.
  set (p := download_path (clock w) e) in *.
  unfold try_except_RequestException, bind at 1.
  rewrite download_stored by done. rewrite Herr.
  unfold bind at 1. rewrite run_yolo_eq, Hraise.
  destruct ex as [| |msg|]; try done.
  by destruct (collect_dets_not_request _ _ _ Hraise).
Qed.

End PredictMore.

(** ** What a request can touch *)

Section Frames.

Context `{ext : Externals}.

Lemma save_stream_net_requests (p : Path) (chunks : list (list byte))
    (err : option string) (total : Z) (w : World) :
  net_requests (trace (save_stream p chunks err total w).2) = net_requests (trace w).
Proof.
  revert total w. induction chunks as [|chunk rest IH]; intros total w.
  - simpl. by destruct err.
  - destruct chunk as [|b chunk]; [apply IH|].
    cbn [save_stream].
    destruct (MAX_DOWNLOAD_BYTES <? _)%Z.
    + cbn. rewrite net_requests_app. apply app_nil_r.
    + unfold bind, append_file, set_fs. by rewrite IH.
Qed.

Lemma save_stream_fs_other (p q : Path) (chunks : list (list byte))
    (err : option string) (total : Z) (w : World) :
  q ≠ p → fs (save_stream p chunks err total w).2 !! q = fs w !! q.
Proof.
  intros Hq. revert total w. induction chunks as [|chunk rest IH]; intros total w.
  - simpl. by destruct err.
  - destruct chunk as [|b chunk]; [apply IH|].
    cbn [save_stream].
    destruct (MAX_DOWNLOAD_BYTES <? _)%Z.
    + cbn. by apply lookup_delete_ne.
    + unfold bind, append_file, set_fs. rewrite IH. cbn [fs].
      by apply lookup_alter_ne.
Qed.

Lemma run_yolo_fs_other (p q : Path) (conf iou : float) (w : World) :
  q ≠ annotated_beside p → fs (run_yolo p conf iou w).2 !! q = fs w !! q.
Proof.
  intros Hq. rewrite run_yolo_eq.
  destruct (collect_dets _ _); [destruct (annotated_data _ _ _ _)|]; [|done..].
  cbn. by apply lookup_insert_ne.
Qed.

(** Where the download stage of the URL path can end: after the loop, or
    after the detection that follows it. *)
Lemma download_stage_world (p : Path) (chunks : list (list byte))
    (err : option string) (w1 : World) :
  (try_except_RequestException
     (do too_large <- save_stream p chunks err 0 ;;
      if too_large then ret (error_page "Image too large (>5MB)")
      else
        do res <- run_yolo p DEFAULT_CONF DEFAULT_IOU ;;
        ret (result_page res.1 res.2))
     (λ e, ret (error_page ("Failed to fetch URL: " +:+ e))) w1).2
    = (save_stream p chunks err 0 w1).2 ∨
  (try_except_RequestException
     (do too_large <- save_stream p chunks err 0 ;;
      if too_large then ret (error_page "Image too large (>5MB)")
      else
        do res <- run_yolo p DEFAULT_CONF DEFAULT_IOU ;;
        ret (result_page res.1 res.2))
     (λ e, ret (error_page ("Failed to fetch URL: " +:+ e))) w1).2
    = (run_yolo p DEFAULT_CONF DEFAULT_IOU (save_stream p chunks err 0 w1).2).2.
Proof.
  unfold try_except_RequestException, bind at 1 3.
  destruct (save_stream p chunks err 0 w1) as [[[|]|ex] w2]; cbn [snd].
  - by left.
  - right. unfold bind.
    by destruct (run_yolo p DEFAULT_CONF DEFAULT_IOU w2) as [[res|[]] w3].
  - left. by destruct ex.
Qed.

(** The worlds a request can end in. *)
Lemma predict_world_cases (request : Request) (w : World) :
  (predict request w).2 = w ∨
  (∃ n data,
     (predict request w).2 =
     (run_yolo (path_join UPLOAD_DIR n) DEFAULT_CONF DEFAULT_IOU
        (world_after w (<[path_join UPLOAD_DIR n := data]> (fs w))
           [EvWrite (path_join UPLOAD_DIR n)])).2) ∨
  (predict request w).2 = world_after w (fs w) [EvGet (submitted_url request)] ∨
  (∃ n chunks err,
     (predict request w).2 =
       (save_stream (path_join UPLOAD_DIR n) chunks err 0
          (world_after w (<[path_join UPLOAD_DIR n := []]> (fs w))
             [EvGet (submitted_url request); EvWrite (path_join UPLOAD_DIR n)])).2 ∨
     (predict request w).2 =
       (run_yolo (path_join UPLOAD_DIR n) DEFAULT_CONF DEFAULT_IOU
          (save_stream (path_join UPLOAD_DIR n) chunks err 0
             (world_after w (<[path_join UPLOAD_DIR n := []]> (fs w))
                [EvGet (submitted_url request); EvWrite (path_join UPLOAD_DIR n)])).2).2).
Proof.
  unfold predict. fold (submitted_url request).
  destruct (uploaded (files_image request)) as [f|].
  { destruct (allowed (filename f)) eqn:Hok.
    - right. left. rewrite predict_upload_accepted by done. cbn [snd].
      unfold upload_path_of. eauto.
    - left. unfold predict_upload. by rewrite Hok. }
  case_bool_decide as Hurl; [by left|].
  set (url := submitted_url request) in *.
  destruct (Py.startswith "http://" url || Py.startswith "https://" url) eqn:Hscheme.
  2:{ left. unfold predict_url. by rewrite Hscheme. }
  apply orb_true_iff in Hscheme. rewrite !startswith_iff in Hscheme.
  destruct (requests_get url) as [msg|r] eqn:Hget.
  { right. right. left. rewrite (predict_url_failed url msg) by auto. done. }
  destruct (status_error r) as [msg|] eqn:Hstatus.
  { right. right. left. rewrite (predict_url_failed url msg) by eauto. done. }
  destruct (ALLOWED_MIME_TO_EXT !! media_type r) as [e|] eqn:Hmime.
  - right. right. right. rewrite (predict_url_opened url r e w) by done.
    unfold download_path. eexists _, _, _. apply download_stage_world.
  - right. right. left. rewrite (predict_url_fetched url r w) by done.
    by rewrite Hmime.
Qed.

(** X16: the handler calls [requests.get] at most once per request, and
    only with the submitted URL, its surrounding whitespace removed.  (The
    redirects the library follows inside that call are its own; the
    handler starts no other fetch.) *)
Theorem at_most_one_fetch (request : Request) (w : World) :
  net_requests (trace (predict request w).2) = net_requests (trace w) ∨
  net_requests (trace (predict request w).2)
    = (net_requests (trace w) ++ [submitted_url request])%list.
Proof.
  destruct (predict_world_cases request w)
    as [->|[(n & data & ->)|[->|(n & chunks & err & [-> | ->])]]].
  - by left.
  - left. rewrite run_yolo_net_requests. cbn [world_after trace].
    rewrite net_requests_app. apply app_nil_r.
  - right. cbn [world_after trace]. by rewrite net_requests_app.
  - right. rewrite save_stream_net_requests. cbn [world_after trace].
    by rewrite net_requests_app.
  - right. rewrite run_yolo_net_requests, save_stream_net_requests.
    cbn [world_after trace]. by rewrite net_requests_app.
Qed.

End Frames.

(** ** Names of the stored files *)

Section StoredNames.

Context `{ext : Externals}.

(** X18: an upload whose sanitised name is [a.e] (no separator, [e] a
    non-empty last extension, [a] not made of dots only) is stored as
    [a_{t}.e], [t] the second of the request, and its annotated image as
    [a_{t}_annotated.e]: the timestamp and the marker go before the
    extension, which both files keep. *)
Theorem stored_names_keep_extension (t : Z) (n a e : string) :
  secure_filename n = a +:+ "." +:+ e →
  Py.contains "/" (secure_filename n) = false →
  Py.contains "." e = false → e ≠ "" →
  Py.lstrip_char "." a ≠ "" →
  name (upload_path_of t n) = a +:+ "_" +:+ Py.str t +:+ "." +:+ e ∧
  name (annotated_beside (upload_path_of t n))
    = a +:+ "_" +:+ Py.str t +:+ "_annotated" +:+ "." +:+ e.
Proof.
  intros Hn Hsep He Hne Ha. unfold upload_path_of. rewrite Hn in *.
  change ("." +:+ e) with (String "." e) in *.
  rewrite splitext_cut by done. cbn [fst snd path_join name].
  split; [done|]. unfold annotated_beside. cbn [name parent].
  destruct (stem_suffix_cut UPLOAD_DIR (a +:+ "_" +:+ Py.str t) e) as [Hstem Hsuffix];
    [done| |done|].
  { destruct a; [done|by rewrite app_cons]. }
  rewrite !app_assoc_str in Hstem, Hsuffix.
  unfold path_join. rewrite Hstem, Hsuffix. by rewrite !app_assoc_str.
Qed.

End StoredNames.

(** ** The further properties on concrete inputs *)

Section MoreWitnesses.

Lemma custom_names_clean_witness :
  Forall
    (λ s, s ≠ "" ∧ trimmed s ∧
          ∃ pre post, pre +:+ s +:+ post ∈ ["cat "; ""] ∧
                      whitespace_only pre ∧ whitespace_only post) ["cat"].
Proof.
  apply (@custom_names_clean Demo.ext ["cat "; ""] ["cat"]); reflexivity.
Defined.

Lemma blank_classes_file_ignored_witness :
  @select_names Scenario.ext_blank (Demo.results None) = names (Demo.results None).
Proof.
  apply (@blank_classes_file_ignored Scenario.ext_blank
           ["  "; Py.code [0xC2; 0xA0]%N; ""] (Demo.results None)).
  - reflexivity.
  - repeat (constructor; [apply strip_blank; reflexivity|]). constructor.
Defined.

Lemma unique_name_distinct_witness :
  (@unique_name Scenario.ext "cat" ".jpg" (Scenario.world_at 1700000000)).1
    = Ok "cat_1700000000.jpg" ∧
  (@unique_name Scenario.ext "cat" ".jpg" (Scenario.world_at 1700000000)).1
    ≠ (@unique_name Scenario.ext "cat" ".jpg" (Scenario.world_at 1700000001)).1.
Proof.
  split; [reflexivity|].
  apply (@unique_name_distinct Scenario.ext "cat" ".jpg"
           (Scenario.world_at 1700000000) (Scenario.world_at 1700000001)).
  simpl. lia.
Defined.

Lemma allowed_last_extension_only_witness :
  allowed ("photo.jpg" +:+ "." +:+ "exe") = bool_decide (Py.lower "exe" ∈ ALLOWED_EXTS).
Proof. apply (allowed_last_extension_only "photo.jpg" "exe"). reflexivity. Defined.

Lemma fetch_failure_reported_witness :
  @predict Scenario.ext (Demo.paste "http://example.com/nowhere") Scenario.world
    = (Ok (error_page ("Failed to fetch URL: " +:+ "timed out")),
       world_after Scenario.world (fs Scenario.world)
         [EvGet (submitted_url (Demo.paste "http://example.com/nowhere"))]) ∧
  @predict Scenario.ext (Demo.paste "http://example.com/missing") Scenario.world
    = (Ok (error_page ("Failed to fetch URL: " +:+ "404 Client Error: Not Found")),
       world_after Scenario.world (fs Scenario.world)
         [EvGet (submitted_url (Demo.paste "http://example.com/missing"))]).
Proof.
  split.
  - apply (@fetch_failure_reported Scenario.ext (Demo.paste "http://example.com/nowhere")
             "timed out" Scenario.world).
    + intros f. discriminate.
    + vm_compute. discriminate.
    + left. by exists "example.com/nowhere".
    + left. reflexivity.
  - apply (@fetch_failure_reported Scenario.ext (Demo.paste "http://example.com/missing")
             "404 Client Error: Not Found" Scenario.world).
    + intros f. discriminate.
    + vm_compute. discriminate.
    + left. by exists "example.com/missing".
    + right. eexists. split; reflexivity.
Defined.

Lemma broken_stream_leaves_partial_file_witness :
  @predict Scenario.ext (Demo.paste "http://example.com/cut.png") Scenario.world
  = (Ok (error_page ("Failed to fetch URL: " +:+ "Connection broken")),
     world_after Scenario.world
       (<[@download_path Scenario.ext (clock Scenario.world) "png"
          := concat [["137"%byte; "080"%byte]; []; ["078"%byte]]]> (fs Scenario.world))
       [EvGet (submitted_url (Demo.paste "http://example.com/cut.png"));
        EvWrite (@download_path Scenario.ext (clock Scenario.world) "png")]).
Proof.
  apply (@broken_stream_leaves_partial_file Scenario.ext
           (Demo.paste "http://example.com/cut.png")
           (mkResponse None (Some "image/png")
              [["137"%byte; "080"%byte]; []; ["078"%byte]] (Some "Connection broken"))
           "png" "Connection broken" Scenario.world).
  - intros f. discriminate.
  - vm_compute. discriminate.
  - left. by exists "example.com/cut.png".
  - reflexivity.
  - reflexivity.
  - apply mime_lookup_Some. reflexivity.
  - vm_compute. discriminate.
  - reflexivity.
Defined.

Lemma no_input_rejected_witness :
  @predict Demo.ext (Demo.paste (" " +:+ Py.code [0xE3; 0x80; 0x80]%N)) Demo.world
    = (Ok (error_page "Please upload a file or provide an image URL"), Demo.world) ∧
  @predict Demo.ext (mkRequest None None) Demo.world
    = (Ok (error_page "Please upload a file or provide an image URL"), Demo.world).
Proof.
  split.
  - apply (@no_input_rejected Demo.ext
             (Demo.paste (" " +:+ Py.code [0xE3; 0x80; 0x80]%N)) Demo.world).
    + intros f. discriminate.
    + apply strip_blank. reflexivity.
  - apply (@no_input_rejected Demo.ext (mkRequest None None) Demo.world).
    + intros f. discriminate.
    + constructor.
Defined.

Lemma media_type_normalised_witness :
  media_type (mkResponse None (Some (" Image/PNG " +:+ ";" +:+ " charset=binary")) [] None)
    = media_type (mkResponse None (Some " Image/PNG ") [] None).
Proof.
  apply (media_type_normalised None " Image/PNG " " charset=binary" [] None).
  reflexivity.
Defined.

Lemma missing_content_type_rejected_witness :
  @predict Scenario.ext (Demo.paste "http://example.com/untyped") Scenario.world
  = (Ok (error_page "URL is not an image (got )"),
     world_after Scenario.world (fs Scenario.world)
       [EvGet (submitted_url (Demo.paste "http://example.com/untyped"))]).
Proof.
  apply (@missing_content_type_rejected Scenario.ext
           (Demo.paste "http://example.com/untyped")
           (mkResponse None None [["060"%byte]] None) Scenario.world).
  - intros f. discriminate.
  - vm_compute. discriminate.
  - left. by exists "example.com/untyped".
  - reflexivity.
  - reflexivity.
  - reflexivity.
Defined.

Lemma stored_names_keep_extension_witness :
  name (@upload_path_of Demo.ext 1700000000 "cat.JPG")
    = "cat" +:+ "_" +:+ Py.str 1700000000 +:+ "." +:+ "JPG" ∧
  name (annotated_beside (@upload_path_of Demo.ext 1700000000 "cat.JPG"))
    = "cat" +:+ "_" +:+ Py.str 1700000000 +:+ "_annotated" +:+ "." +:+ "JPG".
Proof.
  apply (@stored_names_keep_extension Demo.ext 1700000000 "cat.JPG" "cat" "JPG").
  - reflexivity.
  - reflexivity.
  - reflexivity.
  - discriminate.
  - vm_compute. discriminate.
Defined.

Lemma upload_success_witness :
  ∃ dets,
    (@predict Demo.ext (Demo.upload "cat.JPG") Demo.world).1
      = Ok (@result_page Demo.ext dets
              (annotated_beside
                 (@upload_path_of Demo.ext (clock Demo.world) (filename Scenario.cat_file)))) ∧
    length dets
      = length (box_list (@engine_result Demo.ext
                  (world_after Demo.world
                     (<[@upload_path_of Demo.ext (clock Demo.world) (filename Scenario.cat_file)
                        := file_content Scenario.cat_file]> (fs Demo.world))
                     [EvWrite (@upload_path_of Demo.ext (clock Demo.world)
                                 (filename Scenario.cat_file))])
                  (@upload_path_of Demo.ext (clock Demo.world) (filename Scenario.cat_file))
                  DEFAULT_CONF DEFAULT_IOU)) ∧
    file_writes (trace (@predict Demo.ext (Demo.upload "cat.JPG") Demo.world).2)
      = (file_writes (trace Demo.world) ++
         [@upload_path_of Demo.ext (clock Demo.world) (filename Scenario.cat_file);
          annotated_beside
            (@upload_path_of Demo.ext (clock Demo.world) (filename Scenario.cat_file))])%list ∧
    fs (@predict Demo.ext (Demo.upload "cat.JPG") Demo.world).2
      !! @upload_path_of Demo.ext (clock Demo.world) (filename Scenario.cat_file)
      = Some (file_content Scenario.cat_file) ∧
    fs (@predict Demo.ext (Demo.upload "cat.JPG") Demo.world).2
      !! annotated_beside
           (@upload_path_of Demo.ext (clock Demo.world) (filename Scenario.cat_file))
      = Some ["066"%byte] ∧
    annotated_beside
      (@upload_path_of Demo.ext (clock Demo.world) (filename Scenario.cat_file))
      ≠ @upload_path_of Demo.ext (clock Demo.world) (filename Scenario.cat_file).
Proof.
  apply (@upload_success Demo.ext (Demo.upload "cat.JPG") Scenario.cat_file Demo.world
           ["066"%byte]).
  - reflexivity.
  - exists "JPG". split.
    + split; [by exists "cat"|]. apply no_extension_iff. reflexivity.
    + exists "jpg". split; [constructor|reflexivity].
  - vm_compute. reflexivity.
  - vm_compute. reflexivity.
  - repeat constructor. vm_compute. discriminate.
Defined.


Lemma download_success_witness :
  ∃ dets,
    (@predict Demo.ext (Demo.paste "https://example.com/cat.jpg") Demo.world).1
      = Ok (@result_page Demo.ext dets
              (annotated_beside (@download_path Demo.ext (clock Demo.world) "jpg"))) ∧
    length dets
      = length (box_list (@engine_result Demo.ext
                  (world_after Demo.world
                     (<[@download_path Demo.ext (clock Demo.world) "jpg"
                        := concat (body_chunks Scenario.cat_response)]> (fs Demo.world))
                     [EvGet (submitted_url (Demo.paste "https://example.com/cat.jpg"));
                      EvWrite (@download_path Demo.ext (clock Demo.world) "jpg")])
                  (@download_path Demo.ext (clock Demo.world) "jpg")
                  DEFAULT_CONF DEFAULT_IOU)) ∧
    trace (@predict Demo.ext (Demo.paste "https://example.com/cat.jpg") Demo.world).2
      = (trace Demo.world ++
         [EvGet (submitted_url (Demo.paste "https://example.com/cat.jpg"));
          EvWrite (@download_path Demo.ext (clock Demo.world) "jpg");
          EvWrite (annotated_beside (@download_path Demo.ext (clock Demo.world) "jpg"))])%list ∧
    fs (@predict Demo.ext (Demo.paste "https://example.com/cat.jpg") Demo.world).2
      !! @download_path Demo.ext (clock Demo.world) "jpg"
      = Some (concat (body_chunks Scenario.cat_response)).
Proof.
  apply (@download_success Demo.ext (Demo.paste "https://example.com/cat.jpg")
           Scenario.cat_response "jpg" Demo.world).
  - intros f. discriminate.
  - vm_compute. discriminate.
  - right. by exists "example.com/cat.jpg".
  - reflexivity.
  - reflexivity.
  - apply mime_lookup_Some. reflexivity.
  - vm_compute. discriminate.
  - reflexivity.
  - vm_compute. reflexivity.
  - repeat constructor. vm_compute. discriminate.
Defined.

Lemma inference_error_not_caught_witness :
  @predict Scenario.ext_sparse (Demo.paste "http://example.com/dog.bmp") Scenario.world_sparse
  = (Raise (KeyError 1),
     @after_engine Scenario.ext_sparse
       (world_after Scenario.world_sparse
          (<[@download_path Scenario.ext_sparse (clock Scenario.world_sparse) "bmp"
             := concat (body_chunks Scenario.dog_response)]> (fs Scenario.world_sparse))
          [EvGet (submitted_url (Demo.paste "http://example.com/dog.bmp"));
           EvWrite (@download_path Scenario.ext_sparse (clock Scenario.world_sparse) "bmp")])
       (@download_path Scenario.ext_sparse (clock Scenario.world_sparse) "bmp")
       DEFAULT_CONF DEFAULT_IOU).
Proof.
  apply (@inference_error_not_caught Scenario.ext_sparse
           (Demo.paste "http://example.com/dog.bmp") Scenario.dog_response "bmp"
           (KeyError 1) Scenario.world_sparse).
  - intros f. discriminate.
  - vm_compute. discriminate.
  - left. by exists "example.com/dog.bmp".
  - reflexivity.
  - reflexivity.
  - apply mime_lookup_Some. reflexivity.
  - vm_compute. discriminate.
  - reflexivity.
  - vm_compute. reflexivity.
Defined.

End MoreWitnesses.
